(** * interflop-backend-checkdenormal: denormal detection and flush-to-zero

    A shallow embedding of [interflop_checkdenormal.cxx].  Floating-point
    values are the Standard Library's [spec_float] (sign, mantissa and
    exponent of an IEEE-754 binary format, with one NaN), read at the
    precision and exponent range of the C++ type they stand for. *)

From Stdlib Require Import ZArith QArith Qabs Qpower Bool List Ascii String.
From Stdlib Require Import Lia.
From Stdlib Require Import SpecFloat.
Import ListNotations.

Local Open Scope Z_scope.

(** ** The two instances of the template parameter [REAL] *)

Inductive REAL := float | double.

Definition prec (T : REAL) : Z :=
  match T with float => 24 | double => 53 end.

Definition emax (T : REAL) : Z :=
  match T with float => 128 | double => 1024 end.

(** ** Format-generic definitions *)

Module Binary.
Section Format.
Variables prec emax : Z.

(** [std::numeric_limits<REAL>::min()]: mantissa [2^(prec-1)] at the least
    exponent of the format. *)
Definition numeric_limits_min : spec_float :=
  S754_finite false (Z.to_pos (2 ^ (prec - 1))) (emin prec emax).

(** The literal [0.] once converted to [REAL]. *)
Definition zero_literal : spec_float := S754_zero false.

(** The condition of the [if] in [flushToZeroAndCheck]:
    [std::abs( *res) < std::numeric_limits<REAL>::min() && *res != 0.] *)
Definition is_denormal (res : spec_float) : bool :=
  SFltb (SFabs res) numeric_limits_min && negb (SFeqb res zero_literal).

End Format.
End Binary.

(** ** Real value of a float *)

Definition is_finite (f : spec_float) : bool :=
  match f with
  | S754_zero _ | S754_finite _ _ _ => true
  | S754_infinity _ | S754_nan => false
  end.

(** The rational a finite float denotes; 0 on infinities and NaN. *)
Definition SF2Q (f : spec_float) : Q :=
  match f with
  | S754_finite s m e =>
      (if s then inject_Z (Zneg m) else inject_Z (Zpos m)) * (2 # 1) ^ e
  | _ => 0
  end%Q.

Definition valid (T : REAL) (f : spec_float) : bool :=
  valid_binary (prec T) (emax T) f.

Definition numeric_limits_min (T : REAL) : spec_float :=
  Binary.numeric_limits_min (prec T) (emax T).

Definition is_denormal (T : REAL) (res : spec_float) : bool :=
  Binary.is_denormal (prec T) (emax T) res.

(** [(float)a]: a double narrowed to binary32, to nearest, ties to even. *)
Definition cast_to_float (a : spec_float) : spec_float :=
  match a with
  | S754_finite s m e => binary_round (prec float) (emax float) s m e
  | _ => a
  end.

(** ** Context and configuration record

    Modelled from the spec: [interflop_checkdenormal.h], which declares the
    two structures, is not among the sources.  Each holds the one field the
    code reads and writes, [flushtozero]. *)

Record checkdenormal_context_t := { flushtozero : bool }.

Record checkdenormal_conf_t := { conf_flushtozero : bool }.

Definition IFalse := false.
Definition ITrue := true.

(** ** Global constants *)

Local Open Scope string_scope.
Local Open Scope Z_scope.

Definition nl : string := String (Ascii.ascii_of_nat 10) EmptyString.

Definition backend_name : string := "interflop-checkdenormal".
Definition backend_version : string := "1.x-dev".

(** [typedef enum { KEY_FTZ } key_args;] *)
Definition KEY_FTZ : Z := 0.

Definition key_ftz_str : string := "flush-to-zero".

Definition error_t := Z.

(** [ARGP_ERR_UNKNOWN] of [<argp.h>], which is [E2BIG]. *)
Definition ARGP_ERR_UNKNOWN : error_t := 7.

(** ** Outcomes of the entry points that can end the session

    [Panic] is a call of [interflop_panic], which does not return; [Fault] is
    a call through a Null function pointer or a write through a Null pointer;
    [Exit] is a call of [exit] by a function of the host.  Each keeps the
    state [S] reached at that point. *)

Inductive outcome (S A : Type) : Type :=
| Ok (a : A) (s : S)
| Panic (msg : string) (s : S)
| Fault (s : S)
| Exit (status : Z) (s : S).

Arguments Ok {S A} a s.
Arguments Panic {S A} msg s.
Arguments Fault {S A} s.
Arguments Exit {S A} status s.

Definition M (S A : Type) : Type := S -> outcome S A.

Definition ret {S A} (a : A) : M S A := fun s => Ok a s.

Definition bind {S A B} (c : M S A) (k : A -> M S B) : M S B :=
  fun s =>
    match c s with
    | Ok a s' => k a s'
    | Panic msg s' => Panic msg s'
    | Fault s' => Fault s'
    | Exit status s' => Exit status s'
    end.

Definition interflop_panic {S A} (msg : string) : M S A := fun s => Panic msg s.

Definition null_call {S A} : M S A := fun s => Fault s.

(** A host action that always returns. *)
Definition lift {S} (f : S -> S) : M S unit := fun s => Ok tt (f s).

Declare Scope backend_scope.
Delimit Scope backend_scope with backend.
Notation "x <- c ;; k" := (bind c (fun x => k))
  (at level 61, c at next level, right associativity) : backend_scope.
Notation "c ;;; k" := (bind c (fun _ => k))
  (at level 61, right associativity) : backend_scope.

(** ** [struct argp] and its option table *)

Record argp_option := {
  opt_name : option string;
  opt_key : Z;
  opt_arg : option string;
  opt_flags : Z;
  opt_doc : option string;
  opt_group : Z
}.

Definition argp_parser_t : Type :=
  Z -> option string -> checkdenormal_context_t ->
  error_t * checkdenormal_context_t.

Record argp_t := {
  argp_options : list argp_option;
  argp_parser : argp_parser_t;
  argp_args_doc : string;
  argp_doc : string
}.

(** ** The host

    What the backend links against: the function pointers of
    [interflop_stdlib.h] ([None] is Null), the logger, the fused multiply-add
    of [interflop_fma.h], and the state of the host process, [World], which
    the backend only reaches through these functions. *)

Class interflop_host := {
  World : Type;
  File : Type;
  interflop_panic_t : Type;
  interflop_set_handler : string -> interflop_panic_t -> World -> World;
  logger_init : interflop_panic_t -> File -> string -> World -> World;
  logger_info : string -> list string -> World -> World;
  interflop_fma_binary32 : spec_float -> spec_float -> spec_float -> spec_float;
  interflop_fma_binary64 : spec_float -> spec_float -> spec_float -> spec_float;
  interflop_denormalHandler : option (World -> World);
  interflop_malloc : option (World -> option checkdenormal_context_t * World);
  interflop_strcasecmp : option (string -> string -> Z);
  interflop_strtol : option (string -> Z);
  interflop_getenv : option (string -> World -> option string);
  interflop_argp_parse :
    option (argp_t -> list string ->
            M (checkdenormal_context_t * World) error_t)
}.

(** ** The backend

    The module carries the prefix that [INTERFLOP_CHECKDENORMAL_API(name)]
    puts before the name of every exported entry point. *)

Module interflop_checkdenormal.
Section Backend.
Context {host : interflop_host}.

(** Whether the build defines [IFCD_DOOP]: the interceptors then compute the
    operation themselves; otherwise they inspect the value the caller left
    in the result slot. *)
Variable IFCD_DOOP : bool.

Local Open Scope backend_scope.

(** [flushToZeroAndCheck(REAL *res, checkdenormal_context_t *ctx)]: the
    value of [*res] goes in, its value on return comes out. *)
Definition flushToZeroAndCheck (T : REAL) (res : spec_float)
    (ctx : checkdenormal_context_t) (w : World) : spec_float * World :=
  if is_denormal T res then
    let w' :=
      match interflop_denormalHandler with
      | Some handler => handler w
      | None => w
      end in
    if flushtozero ctx then (Binary.zero_literal, w') else (res, w')
  else (res, w).

(** *** C interface *)

Definition _set_checkdenormal_ftz (ftz : bool)
    (ctx : checkdenormal_context_t) : checkdenormal_context_t :=
  {| flushtozero := ftz |}.

(** The macro [APPLYOP(a, b, res, op)], in its two definitions. *)
Definition APPLYOP (T : REAL) (op : spec_float -> spec_float -> spec_float)
    (a b res : spec_float) (ctx : checkdenormal_context_t) (w : World)
    : spec_float * World :=
  if IFCD_DOOP
  then flushToZeroAndCheck T (op a b) ctx w
  else flushToZeroAndCheck T res ctx w.

Definition add_double := APPLYOP double (SFadd (prec double) (emax double)).
Definition add_float := APPLYOP float (SFadd (prec float) (emax float)).
Definition sub_double := APPLYOP double (SFsub (prec double) (emax double)).
Definition sub_float := APPLYOP float (SFsub (prec float) (emax float)).
Definition mul_double := APPLYOP double (SFmul (prec double) (emax double)).
Definition mul_float := APPLYOP float (SFmul (prec float) (emax float)).
Definition div_double := APPLYOP double (SFdiv (prec double) (emax double)).
Definition div_float := APPLYOP float (SFdiv (prec float) (emax float)).

Definition fma_float (a b c res : spec_float)
    (ctx : checkdenormal_context_t) (w : World) : spec_float * World :=
  if IFCD_DOOP
  then flushToZeroAndCheck float (interflop_fma_binary32 a b c) ctx w
  else (res, w).

Definition fma_double (a b c res : spec_float)
    (ctx : checkdenormal_context_t) (w : World) : spec_float * World :=
  if IFCD_DOOP
  then flushToZeroAndCheck double (interflop_fma_binary64 a b c) ctx w
  else (res, w).

Definition cast_double_to_float (a res : spec_float)
    (ctx : checkdenormal_context_t) (w : World) : spec_float * World :=
  let res := if IFCD_DOOP then cast_to_float a else res in
  flushToZeroAndCheck float res ctx w.

Definition finalize (ctx : checkdenormal_context_t) (w : World) : World := w.

Definition get_backend_name : string := backend_name.
Definition get_backend_version : string := backend_version.

(** Modelled from the spec: the macro [INTERFLOP_CHECK_IMPL] of
    [interflop_stdlib.h], which is not among the sources.  A required
    primitive that the host left Null is fatal, through [interflop_panic]. *)
Definition INTERFLOP_CHECK_IMPL {A} (name : string) (impl : option A)
    : M World unit :=
  match impl with
  | Some _ => ret tt
  | None =>
      interflop_panic
        ("Interflop backend error: " ++ name ++ " not implemented" ++ nl)
  end.

Definition _checkdenormal_check_stdlib : M World unit :=
  INTERFLOP_CHECK_IMPL "denormalHandler" interflop_denormalHandler ;;;
  INTERFLOP_CHECK_IMPL "malloc" interflop_malloc ;;;
  INTERFLOP_CHECK_IMPL "strcasecmp" interflop_strcasecmp ;;;
  INTERFLOP_CHECK_IMPL "strtol" interflop_strtol.

(** [*context = interflop_malloc(sizeof(checkdenormal_context_t))]: the
    result is the block obtained, with whatever it holds, or [None] for a
    Null pointer. *)
Definition _checkdenormal_alloc_context
    : M World (option checkdenormal_context_t) :=
  match interflop_malloc with
  | Some malloc => fun w => let (p, w') := malloc w in Ok p w'
  | None => null_call
  end.

Definition _checkdenormal_init_context (p : option checkdenormal_context_t)
    : M World checkdenormal_context_t :=
  match p with
  | Some _ => ret {| flushtozero := IFalse |}
  | None => null_call
  end.

(** What [pre_init] leaves behind: the file-static [stderr_stream] and the
    context stored through [void **context]. *)
Record pre_init_t := {
  stderr_stream : File;
  context : checkdenormal_context_t
}.

Definition pre_init (panic : interflop_panic_t) (stream : File)
    : M World pre_init_t :=
  lift (interflop_set_handler "panic" panic) ;;;
  _checkdenormal_check_stdlib ;;;
  lift (logger_init panic stream backend_name) ;;;
  p <- _checkdenormal_alloc_context ;;
  ctx <- _checkdenormal_init_context p ;;
  ret {| stderr_stream := stream; context := ctx |}.

Definition end_option : argp_option :=
  {| opt_name := None; opt_key := 0; opt_arg := None; opt_flags := 0;
     opt_doc := None; opt_group := 0 |}.

Definition options : list argp_option :=
  [ {| opt_name := Some key_ftz_str; opt_key := KEY_FTZ;
       opt_arg := Some "FTZ"; opt_flags := 0;
       opt_doc := Some "enable flush-to-zero"; opt_group := 0 |};
    end_option ].

(** [parse_opt(key, arg, state)], with [state->input] the context. *)
Definition parse_opt (key : Z) (arg : option string)
    (ctx : checkdenormal_context_t) : error_t * checkdenormal_context_t :=
  if (key =? KEY_FTZ)%Z
  then (0, _set_checkdenormal_ftz ITrue ctx)
  else (ARGP_ERR_UNKNOWN, ctx).

Definition argp : argp_t :=
  {| argp_options := options; argp_parser := parse_opt;
     argp_args_doc := ""; argp_doc := "" |}.

(** [cli(argc, argv, context)]: the state is the context and the world. *)
Definition cli (argv : list string)
    : M (checkdenormal_context_t * World) unit :=
  match interflop_argp_parse with
  | Some argp_parse => argp_parse argp argv ;;; ret tt
  | None =>
      interflop_panic
        ("Interflop backend error: argp_parse not implemented" ++ nl ++
         "Provide implementation or use interflop_configure to " ++
         "configure the backend" ++ nl)
  end.

Definition configure (conf : checkdenormal_conf_t)
    (ctx : checkdenormal_context_t) : checkdenormal_context_t :=
  {| flushtozero := conf_flushtozero conf |}.

(** [interflop_getenv(name)], a call through a function pointer. *)
Definition call_getenv (name : string) : M World (option string) :=
  match interflop_getenv with
  | Some getenv => fun w => Ok (getenv name w) w
  | None => null_call
  end.

Definition call_strcasecmp (s1 s2 : string) : M World Z :=
  match interflop_strcasecmp with
  | Some strcasecmp => ret (strcasecmp s1 s2)
  | None => null_call
  end.

Definition print_information_header (ctx : checkdenormal_context_t)
    : M World unit :=
  silent_load_env <- call_getenv "VFC_BACKENDS_SILENT_LOAD" ;;
  silent_load <-
    match silent_load_env with
    | None => ret false
    | Some env =>
        c <- call_strcasecmp env "True" ;;
        ret (if negb (c =? 0)%Z then false else true)
    end ;;
  if silent_load : bool then ret tt
  else
    lift (logger_info ("load backend with:" ++ nl) []) ;;;
    lift (logger_info ("%s = %s" ++ nl)
            [key_ftz_str; if flushtozero ctx then "true" else "false"]).

(** *** The operation table

    [struct interflop_backend_interface_t] is declared in [interflop.h],
    which is not among the sources: the record has the fields the initializer
    in [init] names, in its order, and [None] is Null.  The signatures of the
    comparison and hook slots keep the context and the world only. *)

Definition binop_t : Type :=
  spec_float -> spec_float -> spec_float -> checkdenormal_context_t ->
  World -> spec_float * World.
Definition fma_t : Type :=
  spec_float -> spec_float -> spec_float -> spec_float ->
  checkdenormal_context_t -> World -> spec_float * World.
Definition cast_t : Type :=
  spec_float -> spec_float -> checkdenormal_context_t ->
  World -> spec_float * World.
Definition cmp_t : Type :=
  Z -> spec_float -> spec_float -> Z -> checkdenormal_context_t ->
  World -> Z * World.
Definition hook_t : Type := checkdenormal_context_t -> World -> World.

Record interflop_backend_interface_t := {
  interflop_add_float : option binop_t;
  interflop_sub_float : option binop_t;
  interflop_mul_float : option binop_t;
  interflop_div_float : option binop_t;
  interflop_cmp_float : option cmp_t;
  interflop_add_double : option binop_t;
  interflop_sub_double : option binop_t;
  interflop_mul_double : option binop_t;
  interflop_div_double : option binop_t;
  interflop_cmp_double : option cmp_t;
  interflop_cast_double_to_float : option cast_t;
  interflop_fma_float : option fma_t;
  interflop_fma_double : option fma_t;
  interflop_enter_function : option hook_t;
  interflop_exit_function : option hook_t;
  interflop_user_call : option hook_t;
  interflop_finalize : option hook_t
}.

Definition interflop_backend_checkdenormal : interflop_backend_interface_t :=
  {| interflop_add_float := Some add_float;
     interflop_sub_float := Some sub_float;
     interflop_mul_float := Some mul_float;
     interflop_div_float := Some div_float;
     interflop_cmp_float := None;
     interflop_add_double := Some add_double;
     interflop_sub_double := Some sub_double;
     interflop_mul_double := Some mul_double;
     interflop_div_double := Some div_double;
     interflop_cmp_double := None;
     interflop_cast_double_to_float := Some cast_double_to_float;
     interflop_fma_float := Some fma_float;
     interflop_fma_double := Some fma_double;
     interflop_enter_function := None;
     interflop_exit_function := None;
     interflop_user_call := None;
     interflop_finalize := Some finalize |}.

Definition init (ctx : checkdenormal_context_t)
    : M World interflop_backend_interface_t :=
  print_information_header ctx ;;;
  ret interflop_backend_checkdenormal.

(** *** A session, as the host drives it

    The entry points the host may call once [pre_init] has returned a
    context.  Only [configure] and [cli] receive the context to write it;
    the other entry points read it, so the session hands them the current
    one and keeps it. *)

Inductive arith := Add | Sub | Mul | Div.

Definition interceptor (op : arith) (T : REAL) : binop_t :=
  match op, T with
  | Add, float => add_float | Add, double => add_double
  | Sub, float => sub_float | Sub, double => sub_double
  | Mul, float => mul_float | Mul, double => mul_double
  | Div, float => div_float | Div, double => div_double
  end.

Inductive call :=
| Call_arith (op : arith) (T : REAL) (a b res : spec_float)
| Call_fma (T : REAL) (a b c res : spec_float)
| Call_cast (a res : spec_float)
| Call_init
| Call_finalize
| Call_configure (conf : checkdenormal_conf_t)
| Call_cli (argv : list string).


Definition session : Type := (checkdenormal_context_t * World)%type.

(** Run a computation on the world while the context stays as it is. *)
Definition with_context {A} (c : checkdenormal_context_t -> M World A)
    : M session unit :=
  fun '(ctx, w) =>
    match c ctx w with
    | Ok _ w' => Ok tt (ctx, w')
    | Panic msg w' => Panic msg (ctx, w')
    | Fault w' => Fault (ctx, w')
    | Exit status w' => Exit status (ctx, w')
    end.

Definition intercepted (f : checkdenormal_context_t -> World ->
                            spec_float * World)
    : M session unit :=
  with_context (fun ctx w => Ok tt (snd (f ctx w))).

Definition step (c : call) : M session unit :=
  match c with
  | Call_arith op T a b res => intercepted (interceptor op T a b res)
  | Call_fma float a b c res => intercepted (fma_float a b c res)
  | Call_fma double a b c res => intercepted (fma_double a b c res)
  | Call_cast a res => intercepted (cast_double_to_float a res)
  | Call_init => with_context init
  | Call_finalize => with_context (fun ctx => lift (finalize ctx))
  | Call_configure conf => fun '(ctx, w) => Ok tt (configure conf ctx, w)
  | Call_cli argv => cli argv
  end.

Fixpoint run (cs : list call) : M session unit :=
  match cs with
  | [] => ret tt
  | c :: cs' => step c ;;; run cs'
  end.

End Backend.
End interflop_checkdenormal.

Import interflop_checkdenormal.


(** What the hook, if there is one, does to the world. *)
Definition notified {host : interflop_host} (w : World) : World :=
  match interflop_denormalHandler with
  | Some handler => handler w
  | None => w
  end.

(** ** Configuration writes

    The two ways to write the flag in a session: [configure] with a record,
    and [cli] on a command line that gives the [flush-to-zero] option with
    the argument its entry in [options] asks for, attached to it
    ([--flush-to-zero=VALUE]) or as the next element. *)





(** ** Values used in the scenarios *)

(** The double nearest to [1e-310]: [0x000012688b70e62b]. *)
Definition d_1e_310 : spec_float := S754_finite false 20240225330731 (-1074).

(** The least positive double, [0x0000000000000001], and its opposite. *)
Definition d_denorm_min : spec_float := S754_finite false 1 (-1074).
Definition d_neg_denorm_min : spec_float := S754_finite true 1 (-1074).

(** [FLT_MIN / 2] held in a double: [2^-127]. *)
Definition d_half_flt_min : spec_float :=
  S754_finite false 4503599627370496 (-179).

(** ** Keys of [<argp.h>] that reach a parser besides its option keys *)

(** A command-line argument that is not an option. *)
Definition ARGP_KEY_ARG : Z := 0.
Definition ARGP_KEY_END : Z := 16777217.
Definition ARGP_KEY_NO_ARGS : Z := 16777218.
Definition ARGP_KEY_INIT : Z := 16777219.
Definition ARGP_KEY_SUCCESS : Z := 16777220.
Definition ARGP_KEY_ERROR : Z := 16777221.
Definition ARGP_KEY_ARGS : Z := 16777222.
Definition ARGP_KEY_FINI : Z := 16777223.

Definition argp_event_keys : list Z :=
  [ARGP_KEY_END; ARGP_KEY_NO_ARGS; ARGP_KEY_INIT; ARGP_KEY_SUCCESS;
   ARGP_KEY_ERROR; ARGP_KEY_ARGS; ARGP_KEY_FINI].

(** ** The argument parser of the C library

    [interflop_argp_parse] is meant to be set to [argp_parse] of glibc.  This
    is [argp_parse(argp, argc, argv, 0, 0, input)] as glibc 2.36 behaves:
    the default options [--help], [-?], [--usage], [--program-name] and
    [--HANG] are added to the table, options are taken before plain
    arguments, and an error of the command line ends the process with
    [exit(argp_err_exit_status)].  Left out: what is printed, the time
    [--HANG] sleeps, the [-W] convention of [getopt], and the variables
    [POSIXLY_CORRECT], [argp_program_version] and
    [argp_program_version_hook], taken as unset. *)

Module Argp.

Definition EBADKEY : error_t := ARGP_ERR_UNKNOWN.

(** [argp_err_exit_status], which is [EX_USAGE]. *)
Definition argp_err_exit_status : Z := 64.

Definition OPTION_ARG_OPTIONAL : Z := 1.
Definition OPTION_ALIAS : Z := 4.
Definition OPTION_DOC : Z := 8.

Definition has_flag (o : argp_option) (flag : Z) : bool :=
  negb (Z.land (opt_flags o) flag =? 0).

Definition is_null {A} (p : option A) : bool :=
  match p with
  | None => true
  | Some _ => false
  end.

(** [__option_is_end] and [__option_is_short]. *)
Definition option_is_end (o : argp_option) : bool :=
  (opt_key o =? 0) && is_null (opt_name o) && is_null (opt_doc o) &&
  (opt_group o =? 0).

Definition option_is_short (o : argp_option) : bool :=
  negb (has_flag o OPTION_DOC) && (32 <=? opt_key o) && (opt_key o <=? 126).

Inductive has_arg := no_argument | required_argument | optional_argument.

(** Who receives an option: the parser of the table, with a key, or the
    default parser, for one of its four options. *)
Inductive target :=
| User (key : Z)
| Help
| Usage
| Program_name
| Hang.

Record long_option := {
  lo_name : string;
  lo_has_arg : has_arg;
  lo_target : target
}.

Record short_option := {
  so_key : Z;
  so_has_arg : has_arg;
  so_target : target
}.

Definition has_arg_eqb (x y : has_arg) : bool :=
  match x, y with
  | no_argument, no_argument
  | required_argument, required_argument
  | optional_argument, optional_argument => true
  | _, _ => false
  end.

Definition target_eqb (x y : target) : bool :=
  match x, y with
  | User k, User k' => k =? k'
  | Help, Help | Usage, Usage | Program_name, Program_name | Hang, Hang =>
      true
  | _, _ => false
  end.

(** The key of a long option travels in the low 24 bits of its [getopt]
    value and comes back sign-extended. *)
Definition user_key (key : Z) : Z := (key + 2 ^ 23) mod 2 ^ 24 - 2 ^ 23.

Definition arg_of (real : argp_option) : has_arg :=
  match opt_arg real with
  | None => no_argument
  | Some _ =>
      if has_flag real OPTION_ARG_OPTIONAL then optional_argument
      else required_argument
  end.

Definition known_long (n : string) (longs : list long_option) : bool :=
  existsb (fun l => String.eqb n (lo_name l)) longs.

(** [convert_options]: the short and long options of a table, up to its
    terminator; [real] is the last entry that is not an alias. *)
Fixpoint convert (os : list argp_option) (real : argp_option)
    (longs : list long_option) (shorts : list short_option)
    : list long_option * list short_option :=
  match os with
  | [] => (longs, shorts)
  | o :: os' =>
      if option_is_end o then (longs, shorts)
      else
        let real := if has_flag o OPTION_ALIAS then real else o in
        if has_flag real OPTION_DOC then convert os' real longs shorts
        else
          let shorts :=
            if option_is_short o
            then (shorts ++ [ {| so_key := opt_key o;
                                 so_has_arg := arg_of real;
                                 so_target := User (opt_key o) |} ])%list
            else shorts in
          let longs :=
            match opt_name o with
            | Some n =>
                if known_long n longs then longs
                else
                  (longs ++
                   [ {| lo_name := n;
                        lo_has_arg := arg_of real;
                        lo_target :=
                          User (user_key (if opt_key o =? 0
                                          then opt_key real
                                          else opt_key o)) |} ])%list
            | None => longs
            end in
          convert os' real longs shorts
  end.

Definition no_option : argp_option :=
  {| opt_name := None; opt_key := 0; opt_arg := None; opt_flags := 0;
     opt_doc := None; opt_group := 0 |}.

(** [argp_default_options], after the options of the table. *)
Definition default_longs : list long_option :=
  [ {| lo_name := "help"; lo_has_arg := no_argument; lo_target := Help |};
    {| lo_name := "usage"; lo_has_arg := no_argument; lo_target := Usage |};
    {| lo_name := "program-name"; lo_has_arg := required_argument;
       lo_target := Program_name |};
    {| lo_name := "HANG"; lo_has_arg := optional_argument;
       lo_target := Hang |} ].

Definition add_default_longs (longs : list long_option)
    : list long_option :=
  fold_left (fun ls d => if known_long (lo_name d) ls then ls
                         else (ls ++ [d])%list)
    default_longs longs.

Definition tables (os : list argp_option)
    : list long_option * list short_option :=
  let (longs, shorts) := convert os (hd no_option os) [] [] in
  (add_default_longs longs,
   (shorts ++ [ {| so_key := 63; so_has_arg := no_argument;
                   so_target := Help |} ])%list).

(** How [getopt_long] finds a long option: an exact name, or else the first
    name it abbreviates, unless another one it abbreviates differs from it
    in argument or value. *)
Definition find_long (n : string) (longs : list long_option)
    : option long_option :=
  match find (fun l => String.eqb n (lo_name l)) longs with
  | Some l => Some l
  | None =>
      match filter (fun l => prefix n (lo_name l)) longs with
      | [] => None
      | l :: others =>
          if forallb (fun l' => has_arg_eqb (lo_has_arg l) (lo_has_arg l') &&
                                target_eqb (lo_target l) (lo_target l'))
               others
          then Some l
          else None
      end
  end.

Definition find_short (c : Ascii.ascii) (shorts : list short_option)
    : option short_option :=
  if Ascii.eqb c ":"%char || Ascii.eqb c ";"%char then None
  else find (fun o => so_key o =? Z.of_nat (Ascii.nat_of_ascii c)) shorts.

(** The elements of a command line, as [getopt] tells them apart. *)
Inductive element :=
| Plain
| Terminator
| Long (body : string)
| Short (cluster : string).

Definition classify (el : string) : element :=
  match el with
  | EmptyString => Plain
  | String c1 rest1 =>
      if Ascii.eqb c1 "-"%char then
        match rest1 with
        | EmptyString => Plain
        | String c2 rest2 =>
            if Ascii.eqb c2 "-"%char then
              match rest2 with
              | EmptyString => Terminator
              | String _ _ => Long rest2
              end
            else Short rest1
        end
      else Plain
  end.

(** [name] and [value] of [name=value]; no value without an [=]. *)
Fixpoint split_eq (s : string) : string * option string :=
  match s with
  | EmptyString => (EmptyString, None)
  | String c s' =>
      if Ascii.eqb c "="%char then (EmptyString, Some s')
      else let (n, v) := split_eq s' in (String c n, v)
  end.

Section Parser.
(** The input handed to the parser function, and that function. *)
Variable I : Type.
Variable parser : Z -> option string -> I -> error_t * I.
Variable longs : list long_option.
Variable shorts : list short_option.

(** Where the parse stands after a step: it goes on, a call of the parser
    function has returned an error of its own, or the process has exited. *)
Inductive verdict :=
| Continue (input : I)
| Failed (err : error_t) (input : I)
| Exited (status : Z) (input : I).

(** [parser_parse_opt] and [argp_default_parser]. *)
Definition run_target (t : target) (arg : option string) (input : I)
    : verdict :=
  match t with
  | User key =>
      let (err, input') := parser key arg input in
      if err =? 0 then Continue input'
      else if err =? EBADKEY then Exited argp_err_exit_status input'
      else Failed err input'
  | Help | Usage => Exited 0 input
  | Program_name | Hang => Continue input
  end.

(** What a cluster of short options comes to: a verdict, or a last option
    that takes its argument from the next element of the command line. *)
Inductive cluster_end :=
| Cluster_done (v : verdict)
| Cluster_needs (t : target) (input : I).

Fixpoint cluster (s : string) (input : I) : cluster_end :=
  match s with
  | EmptyString => Cluster_done (Continue input)
  | String c s' =>
      match find_short c shorts with
      | None => Cluster_done (Exited argp_err_exit_status input)
      | Some o =>
          match so_has_arg o with
          | no_argument =>
              match run_target (so_target o) None input with
              | Continue input' => cluster s' input'
              | v => Cluster_done v
              end
          | required_argument =>
              match s' with
              | EmptyString => Cluster_needs (so_target o) input
              | String _ _ =>
                  Cluster_done (run_target (so_target o) (Some s') input)
              end
          | optional_argument =>
              Cluster_done
                (run_target (so_target o)
                   match s' with
                   | EmptyString => None
                   | String _ _ => Some s'
                   end input)
          end
      end
  end.

(** The options of the command line, in order; the plain arguments are set
    aside, in order too, for afterwards. *)
Fixpoint scan (args plain : list string) (input : I)
    : verdict * list string :=
  match args with
  | [] => (Continue input, plain)
  | el :: rest =>
      match classify el with
      | Plain => scan rest (plain ++ [el])%list input
      | Terminator => (Continue input, (plain ++ rest)%list)
      | Long body =>
          let (n, value) := split_eq body in
          match find_long n longs with
          | None => (Exited argp_err_exit_status input, plain)
          | Some l =>
              match value, lo_has_arg l with
              | Some _, no_argument =>
                  (Exited argp_err_exit_status input, plain)
              | Some v, _ =>
                  match run_target (lo_target l) (Some v) input with
                  | Continue input' => scan rest plain input'
                  | stop => (stop, plain)
                  end
              | None, required_argument =>
                  match rest with
                  | [] => (Exited argp_err_exit_status input, plain)
                  | v :: rest' =>
                      match run_target (lo_target l) (Some v) input with
                      | Continue input' => scan rest' plain input'
                      | stop => (stop, plain)
                      end
                  end
              | None, _ =>
                  match run_target (lo_target l) None input with
                  | Continue input' => scan rest plain input'
                  | stop => (stop, plain)
                  end
              end
          end
      | Short s =>
          match cluster s input with
          | Cluster_done (Continue input') => scan rest plain input'
          | Cluster_done stop => (stop, plain)
          | Cluster_needs t input' =>
              match rest with
              | [] => (Exited argp_err_exit_status input', plain)
              | v :: rest' =>
                  match run_target t (Some v) input' with
                  | Continue input'' => scan rest' plain input''
                  | stop => (stop, plain)
                  end
              end
          end
      end
  end.

(** [parser_parse_arg] on the plain arguments: each goes to the parser
    function under [ARGP_KEY_ARG]; where that is not known, [ARGP_KEY_ARGS]
    can take all that are left.  The boolean tells whether one was taken. *)
Fixpoint plain_arguments (args : list string) (taken : bool) (input : I)
    : verdict * bool :=
  match args with
  | [] => (Continue input, taken)
  | arg :: rest =>
      let (err, input1) := parser ARGP_KEY_ARG (Some arg) input in
      if err =? 0 then plain_arguments rest true input1
      else if err =? EBADKEY then
        let (err2, input2) := parser ARGP_KEY_ARGS None input1 in
        if err2 =? 0 then (Continue input2, true)
        else if err2 =? EBADKEY
             then (Exited argp_err_exit_status input2, taken)
             else (Failed err2 input2, taken)
      else (Failed err input1, taken)
  end.

Definition understood (err : error_t) : bool :=
  (err =? 0) || (err =? EBADKEY).

(** [parser_finalize] after an error of the parser function. *)
Definition fail (err : error_t) (input : I) : error_t * I :=
  let (_, input1) := parser ARGP_KEY_ERROR None input in
  let (_, input2) := parser ARGP_KEY_FINI None input1 in
  (err, input2).

(** [parser_finalize] once the command line is used up. *)
Definition finish (taken : bool) (input : I) : error_t * I :=
  let (err1, input1) :=
    if taken then (0, input) else parser ARGP_KEY_NO_ARGS None input in
  if understood err1 then
    let (err2, input2) := parser ARGP_KEY_END None input1 in
    if understood err2 then
      let (err3, input3) := parser ARGP_KEY_SUCCESS None input2 in
      let (_, input4) := parser ARGP_KEY_FINI None input3 in
      (if err3 =? EBADKEY then 0 else err3, input4)
    else fail err2 input2
  else fail err1 input1.

(** How [argp_parse] ends: it returns, or the process has exited. *)
Inductive result :=
| Returned (err : error_t) (input : I)
| Exited_with (status : Z) (input : I).

Definition returned (r : error_t * I) : result :=
  Returned (fst r) (snd r).

(** The whole parse, [argv[0]] being the name of the program. *)
Definition parse (argv : list string) (input : I) : result :=
  let (err0, input0) := parser ARGP_KEY_INIT None input in
  if understood err0 then
    match scan (tl argv) [] input0 with
    | (Continue input1, plain) =>
        match plain_arguments plain false input1 with
        | (Continue input2, taken) => returned (finish taken input2)
        | (Failed err input2, _) => returned (fail err input2)
        | (Exited status input2, _) => Exited_with status input2
        end
    | (Failed err input1, _) => returned (fail err input1)
    | (Exited status input1, _) => Exited_with status input1
    end
  else Returned err0 input0.

End Parser.

Definition argp_parse {W : Type} (a : argp_t) (argv : list string)
    : M (checkdenormal_context_t * W) error_t :=
  fun '(ctx, w) =>
    let (longs, shorts) := tables (argp_options a) in
    match parse _ (argp_parser a) longs shorts argv ctx with
    | Returned _ err ctx' => Ok err (ctx', w)
    | Exited_with _ status ctx' => Exit status (ctx', w)
    end.

End Argp.

(** ** Two string functions of the C library, in the C locale *)

Module Libc.

Definition code (c : ascii) : Z := Z.of_nat (nat_of_ascii c).

Definition tolower (c : ascii) : ascii :=
  if (65 <=? code c) && (code c <=? 90)
  then ascii_of_nat (nat_of_ascii c + 32)
  else c.

(** [strcasecmp(s1, s2)]: the difference of the first two characters that
    differ once in lower case, the end of a string counting as 0. *)
Fixpoint strcasecmp (s1 s2 : string) : Z :=
  match s1, s2 with
  | EmptyString, EmptyString => 0
  | EmptyString, String c2 _ => - code (tolower c2)
  | String c1 _, EmptyString => code (tolower c1)
  | String c1 r1, String c2 r2 =>
      let d := code (tolower c1) - code (tolower c2) in
      if d =? 0 then strcasecmp r1 r2 else d
  end.

Definition isspace (c : ascii) : bool :=
  (code c =? 32) || ((9 <=? code c) && (code c <=? 13)).

Fixpoint skip_spaces (s : string) : string :=
  match s with
  | String c s' => if isspace c then skip_spaces s' else s
  | EmptyString => s
  end.

Fixpoint digits (s : string) (acc : Z) : Z :=
  match s with
  | String c s' =>
      if (48 <=? code c) && (code c <=? 57)
      then digits s' (10 * acc + (code c - 48))
      else acc
  | EmptyString => acc
  end.

(** [strtol(s, NULL, 10)] with a 64-bit [long]: blanks, a sign, the digits
    up to the first other character, the value kept within the type. *)
Definition strtol (s : string) : Z :=
  let value :=
    match skip_spaces s with
    | String c s' =>
        if code c =? 45 then - digits s' 0
        else if code c =? 43 then digits s' 0
        else digits (String c s') 0
    | EmptyString => 0
    end in
  Z.max (- 2 ^ 63) (Z.min (2 ^ 63 - 1) value).

End Libc.

(** ** Two hosts, for running the backend *)

Module Hosts.

(** Fused multiply-add to nearest, ties to even: the exact value of
    [x * y + z] rounded once, with the IEEE-754 rules for zeros, infinities
    and NaN. *)
Definition fma_zero_sign (sxy sz : bool) : bool :=
  if Bool.eqb sxy sz then sxy else false.

Definition SFfma (p emx : Z) (x y z : spec_float) : spec_float :=
  match x, y with
  | S754_nan, _ | _, S754_nan => S754_nan
  | S754_infinity _, S754_zero _ | S754_zero _, S754_infinity _ => S754_nan
  | S754_infinity sx, S754_infinity sy
  | S754_infinity sx, S754_finite sy _ _
  | S754_finite sx _ _, S754_infinity sy =>
      match z with
      | S754_nan => S754_nan
      | S754_infinity sz =>
          if Bool.eqb (xorb sx sy) sz then z else S754_nan
      | _ => S754_infinity (xorb sx sy)
      end
  | S754_finite sx _ _, S754_zero sy
  | S754_zero sx, S754_finite sy _ _
  | S754_zero sx, S754_zero sy =>
      match z with
      | S754_zero sz => S754_zero (fma_zero_sign (xorb sx sy) sz)
      | _ => z
      end
  | S754_finite sx mx ex, S754_finite sy my ey =>
      match z with
      | S754_nan => S754_nan
      | S754_infinity _ => z
      | S754_zero sz =>
          binary_normalize p emx
            (cond_Zopp (xorb sx sy) (Zpos (mx * my))) (ex + ey)
            (fma_zero_sign (xorb sx sy) sz)
      | S754_finite sz mz ez =>
          let e := Z.min (ex + ey) ez in
          binary_normalize p emx
            (cond_Zopp (xorb sx sy) (Zpos (mx * my)) * 2 ^ (ex + ey - e) +
             cond_Zopp sz (Zpos mz) * 2 ^ (ez - e))
            e (fma_zero_sign (xorb sx sy) sz)
      end
  end.

(** Every primitive is registered, the argument parser being that of the C
    library.  The world is the log of what the host was asked to do, newest
    first; fresh memory holds a set flag. *)
Definition registered : interflop_host :=
  {| World := list string;
     File := unit;
     interflop_panic_t := unit;
     interflop_set_handler := fun name _ w => ("set_handler " ++ name) :: w;
     logger_init := fun _ _ name w => ("logger_init " ++ name) :: w;
     logger_info := fun fmt args w => concat "," (fmt :: args) :: w;
     interflop_fma_binary32 := SFfma (prec float) (emax float);
     interflop_fma_binary64 := SFfma (prec double) (emax double);
     interflop_denormalHandler := Some (fun w => "denormal" :: w);
     interflop_malloc := Some (fun w => (Some {| flushtozero := true |}, w));
     interflop_strcasecmp := Some Libc.strcasecmp;
     interflop_strtol := Some Libc.strtol;
     interflop_getenv := Some (fun _ _ => None);
     interflop_argp_parse := Some Argp.argp_parse |}.

(** Nothing is registered. *)
Definition unregistered : interflop_host :=
  {| World := list string;
     File := unit;
     interflop_panic_t := unit;
     interflop_set_handler := fun name _ w => ("set_handler " ++ name) :: w;
     logger_init := fun _ _ name w => ("logger_init " ++ name) :: w;
     logger_info := fun fmt args w => concat "," (fmt :: args) :: w;
     interflop_fma_binary32 := SFfma (prec float) (emax float);
     interflop_fma_binary64 := SFfma (prec double) (emax double);
     interflop_denormalHandler := None;
     interflop_malloc := None;
     interflop_strcasecmp := None;
     interflop_strtol := None;
     interflop_getenv := None;
     interflop_argp_parse := None |}.

End Hosts.

(** ** Notions the further properties are stated with *)

(** The operation [a op b] of [APPLYOP] stands for, at each width. *)
Definition ieee_op (op : arith) (T : REAL)
    : spec_float -> spec_float -> spec_float :=
  match op with
  | Add => SFadd (prec T) (emax T)
  | Sub => SFsub (prec T) (emax T)
  | Mul => SFmul (prec T) (emax T)
  | Div => SFdiv (prec T) (emax T)
  end.

(** The parser callback run on a sequence of keys with their arguments, as
    a parse of a whole command line does. *)
Definition parse_keys (ks : list (Z * option string))
    (ctx : checkdenormal_context_t) : checkdenormal_context_t :=
  fold_left (fun c k => snd (parse_opt (fst k) (snd k) c)) ks ctx.

(** The values the [configure] calls of a run store, in order. *)
Definition configure_values (cs : list call) : list bool :=
  flat_map (fun c =>
              match c with
              | Call_configure conf => [conf_flushtozero conf]
              | _ => []
              end) cs.

Definition is_cli (c : call) : bool :=
  match c with
  | Call_cli _ => true
  | _ => false
  end.

(** The world in which [pre_init] allocates: the panic handler is set and
    the logger initialised. *)
Definition world_before_alloc {host : interflop_host}
    (panic : interflop_panic_t) (stream : File) (w : World) : World :=
  logger_init panic stream backend_name
    (interflop_set_handler "panic" panic w).

(** The world after the two lines of [print_information_header]. *)
Definition world_after_header {host : interflop_host}
    (ctx : checkdenormal_context_t) (w : World) : World :=
  logger_info ("%s = %s" ++ nl)
    [key_ftz_str; if flushtozero ctx then "true" else "false"]
    (logger_info ("load backend with:" ++ nl) [] w).

(** ** Hosts with a chosen allocator and environment *)

Module Variants.

(** Every primitive is registered; [malloc] returns [block] and
    [VFC_BACKENDS_SILENT_LOAD] has the value [env]. *)
Definition host_with (block : option checkdenormal_context_t)
    (env : option string) : interflop_host :=
  {| World := list string;
     File := unit;
     interflop_panic_t := unit;
     interflop_set_handler := fun name _ w => ("set_handler " ++ name) :: w;
     logger_init := fun _ _ name w => ("logger_init " ++ name) :: w;
     logger_info := fun fmt args w => concat "," (fmt :: args) :: w;
     interflop_fma_binary32 := Hosts.SFfma (prec float) (emax float);
     interflop_fma_binary64 := Hosts.SFfma (prec double) (emax double);
     interflop_denormalHandler := Some (fun w => "denormal" :: w);
     interflop_malloc := Some (fun w => (block, w));
     interflop_strcasecmp := Some Libc.strcasecmp;
     interflop_strtol := Some Libc.strtol;
     interflop_getenv :=
       Some (fun name _ =>
               if String.eqb name "VFC_BACKENDS_SILENT_LOAD" then env
               else None);
     interflop_argp_parse := Some Argp.argp_parse |}.

End Variants.

(** * Properties *)

(** ** The comparison of [is_denormal], read on rationals *)

Section DetectorFacts.
Variables p emx : Z.
Hypothesis Hprec : 1 <= p.

Let least := emin p emx.

Lemma digits2_pos_bounds (m : positive) :
  2 ^ (Zpos (digits2_pos m) - 1) <= Zpos m < 2 ^ Zpos (digits2_pos m).
Proof.
  induction m as [m IH | m IH | ]; simpl digits2_pos.
  - rewrite Pos2Z.inj_succ.
    replace (Z.succ (Zpos (digits2_pos m)) - 1)
      with (Z.succ (Zpos (digits2_pos m) - 1)) by lia.
    rewrite !Z.pow_succ_r by lia. lia.
  - rewrite Pos2Z.inj_succ.
    replace (Z.succ (Zpos (digits2_pos m)) - 1)
      with (Z.succ (Zpos (digits2_pos m) - 1)) by lia.
    rewrite !Z.pow_succ_r by lia. lia.
  - simpl. lia.
Qed.

Lemma min_mantissa : Zpos (Z.to_pos (2 ^ (p - 1))) = 2 ^ (p - 1).
Proof. apply Z2Pos.id. apply Z.pow_pos_nonneg; lia. Qed.

(** A mantissa and exponent of the format sit at the least exponent, or
    above it with all [p] digits in use. *)
Lemma bounded_shape (m : positive) (e : Z) :
  bounded p emx m e = true ->
  e = least \/ (least < e /\ 2 ^ (p - 1) <= Zpos m).
Proof.
  unfold bounded, canonical_mantissa, fexp. fold least.
  intros H. apply andb_true_iff in H. destruct H as [H _].
  apply Z.eqb_eq in H.
  destruct (Z.eq_dec e least) as [Heq | Hne]; [ now left | right ].
  assert (Hd : Zpos (digits2_pos m) = p) by lia.
  split; [ lia | ].
  rewrite <- Hd. apply digits2_pos_bounds.
Qed.
(** On a finite float the condition of the [if] is a test on the exponent
    and the mantissa. *)
Lemma is_denormal_finite (s : bool) (m : positive) (e : Z) :
  bounded p emx m e = true ->
  (Binary.is_denormal p emx (S754_finite s m e) = true <->
   e = least /\ Zpos m < 2 ^ (p - 1)).
Proof.
  intros Hb. pose proof (bounded_shape m e Hb) as Hshape.
  unfold Binary.is_denormal.
  replace (negb (SFeqb (S754_finite s m e) Binary.zero_literal)) with true
    by (now destruct s).
  rewrite andb_true_r.
  unfold Binary.numeric_limits_min, SFltb. fold least.
  simpl SFabs. simpl SFcompare.
  change (PosDef.Pos.compare_cont Eq m (Z.to_pos (2 ^ (p - 1))))
    with (Zpos m ?= Zpos (Z.to_pos (2 ^ (p - 1)))).
  rewrite min_mantissa.
  destruct (Z.compare_spec e least) as [He | He | He].
  - destruct (Z.compare_spec (Zpos m) (2 ^ (p - 1))); split;
      intros; try discriminate; try reflexivity; lia.
  - exfalso. lia.
  - split; [ discriminate | lia ].
Qed.

Lemma two_pow_pos (e : Z) : (0 < (2 # 1) ^ e)%Q.
Proof. apply Qpower_0_lt. reflexivity. Qed.

Lemma SF2Q_abs (s : bool) (m : positive) (e : Z) :
  (Qabs (SF2Q (S754_finite s m e)) == inject_Z (Zpos m) * (2 # 1) ^ e)%Q.
Proof.
  unfold SF2Q. rewrite Qabs_Qmult.
  rewrite (Qabs_pos ((2 # 1) ^ e)) by (apply Qlt_le_weak, two_pow_pos).
  destruct s; reflexivity.
Qed.

Lemma SF2Q_finite_nonzero (s : bool) (m : positive) (e : Z) :
  ~ (SF2Q (S754_finite s m e) == 0)%Q.
Proof.
  intros H. pose proof (SF2Q_abs s m e) as Ha. rewrite H in Ha.
  assert (Hpos : (0 < inject_Z (Zpos m) * (2 # 1) ^ e)%Q).
  { apply Qmult_lt_0_compat; [ reflexivity | apply two_pow_pos ]. }
  rewrite <- Ha in Hpos. discriminate Hpos.
Qed.

(** The same test decides whether the magnitude lies below that of
    [numeric_limits_min]. *)
Lemma below_min_finite (s : bool) (m : positive) (e : Z) :
  bounded p emx m e = true ->
  ((Qabs (SF2Q (S754_finite s m e)) <
    SF2Q (Binary.numeric_limits_min p emx))%Q <->
   e = least /\ Zpos m < 2 ^ (p - 1)).
Proof.
  intros Hb. pose proof (bounded_shape m e Hb) as Hshape.
  rewrite SF2Q_abs. unfold Binary.numeric_limits_min, SF2Q. fold least.
  rewrite min_mantissa. split.
  - intros Hlt. destruct Hshape as [He | [He Hm]].
    + split; [ exact He | ]. subst e.
      apply Qmult_lt_r in Hlt; [ | apply two_pow_pos ].
      now rewrite Zlt_Qlt.
    + exfalso. apply (Qlt_irrefl (inject_Z (Zpos m) * (2 # 1) ^ e)).
      eapply Qlt_trans; [ exact Hlt | ].
      apply Qle_lt_trans with (inject_Z (Zpos m) * (2 # 1) ^ least)%Q.
      * apply Qmult_le_r; [ apply two_pow_pos | ].
        now rewrite <- Zle_Qle.
      * apply Qmult_lt_l; [ reflexivity | ].
        apply Qpower_lt_compat_l; [ exact He | reflexivity ].
  - intros [He Hm]. subst e.
    apply Qmult_lt_r; [ apply two_pow_pos | ].
    now rewrite <- Zlt_Qlt.
Qed.
(** A mantissa of the format falls short of [2^(p-1)] exactly when it uses
    fewer than [p] digits, and then the exponent is the least one. *)
Lemma bounded_digits (m : positive) (e : Z) :
  bounded p emx m e = true ->
  (e = least /\ Zpos m < 2 ^ (p - 1) <-> Zpos (digits2_pos m) <> p).
Proof.
  intros Hb. pose proof (bounded_shape m e Hb) as Hshape.
  pose proof (digits2_pos_bounds m) as [Hlo Hhi].
  unfold bounded, canonical_mantissa, fexp in Hb. fold least in Hb.
  apply andb_true_iff in Hb. destruct Hb as [Hb _].
  apply Z.eqb_eq in Hb.
  split.
  - intros [_ Hm] Hd. rewrite Hd in Hlo. lia.
  - intros Hd. assert (Hlt : Zpos (digits2_pos m) < p) by lia.
    split; [ lia | ].
    eapply Z.lt_le_trans; [ exact Hhi | ].
    apply Z.pow_le_mono_r; lia.
Qed.

End DetectorFacts.

(** ** Checks of the embedding on concrete values *)

Example min_double_value :
  (SF2Q (numeric_limits_min double) == (2 # 1) ^ (-1022))%Q.
Proof. vm_compute. reflexivity. Qed.

Example min_float_value :
  (SF2Q (numeric_limits_min float) == (2 # 1) ^ (-126))%Q.
Proof. vm_compute. reflexivity. Qed.

Example min_is_normal :
  SFclassify (prec double) (numeric_limits_min double) = FloatClass.PNormal /\
  SFclassify (prec float) (numeric_limits_min float) = FloatClass.PNormal.
Proof. split; reflexivity. Qed.

(** [d_1e_310] is within half a unit in the last place of [10^-310]. *)
Example d_1e_310_nearest :
  2 * Z.abs (20240225330731 * 10 ^ 310 - 2 ^ 1074) <= 10 ^ 310 /\
  valid double d_1e_310 = true.
Proof. split; [ vm_compute; discriminate | reflexivity ]. Qed.

Example cast_half_flt_min :
  cast_to_float d_half_flt_min = S754_finite false 4194304 (-149) /\
  is_denormal float (cast_to_float d_half_flt_min) = true.
Proof. split; reflexivity. Qed.

(** The sample fused multiply-add: one rounding, and the sign of a product
    that underflows or is an exact zero. *)
Example fma_signed_zero :
  Hosts.SFfma (prec float) (emax float)
    (S754_finite true 8388608 (-123)) (S754_finite false 8388608 (-123))
    (S754_zero false) = S754_zero true /\
  Hosts.SFfma (prec float) (emax float)
    (S754_zero true) (S754_finite false 8388608 (-23)) (S754_zero false)
  = S754_zero false /\
  Hosts.SFfma (prec float) (emax float)
    (S754_zero true) (S754_finite false 8388608 (-23)) (S754_zero true)
  = S754_zero true /\
  Hosts.SFfma (prec float) (emax float)
    (S754_infinity false) (S754_zero false) (S754_finite false 8388608 (-23))
  = S754_nan.
Proof. repeat split. Qed.

Example fma_rounds_once :
  Hosts.SFfma (prec double) (emax double)
    (S754_finite false 4503599627370497 (-52))
    (S754_finite false 4503599627370497 (-52))
    (S754_finite true 4503599627370498 (-52))
  = S754_finite false 4503599627370496 (-156).
Proof. reflexivity. Qed.

(** ** The detector *)

Lemma prec_pos (T : REAL) : 1 <= prec T.
Proof. destruct T; simpl; lia. Qed.

(** Zeros, infinities and NaN never pass the test. *)
Lemma is_denormal_not_finite_nonzero (T : REAL) (r : spec_float) :
  match r with S754_finite _ _ _ => False | _ => True end ->
  is_denormal T r = false.
Proof.
  destruct r as [s | s | | s m e]; intros H; try contradiction;
    destruct T; try destruct s; reflexivity.
Qed.

(** C1: for a value [r] of either width, the condition guarding the flush
    branch of [flushToZeroAndCheck] holds exactly when [|r|] is below the
    least positive normal magnitude of the width and [r] is not zero.  In
    particular it fails on zeros, on every [r] whose magnitude reaches that
    least normal, and on infinities and NaN. *)
Theorem is_denormal_iff_below_min (T : REAL) (r : spec_float) :
  valid T r = true ->
  (is_denormal T r = true <->
   is_finite r = true /\
   (Qabs (SF2Q r) < SF2Q (numeric_limits_min T))%Q /\
   ~ (SF2Q r == 0)%Q) /\
  (is_finite r = true -> (SF2Q r == 0)%Q -> is_denormal T r = false) /\
  (is_finite r = true ->
   (SF2Q (numeric_limits_min T) <= Qabs (SF2Q r))%Q ->
   is_denormal T r = false) /\
  (is_finite r = false -> is_denormal T r = false).
Proof.
  intros Hv.
  assert (Hiff :
    is_denormal T r = true <->
    is_finite r = true /\
    (Qabs (SF2Q r) < SF2Q (numeric_limits_min T))%Q /\
    ~ (SF2Q r == 0)%Q).
  { destruct r as [s | s | | s m e].
    - rewrite is_denormal_not_finite_nonzero by exact I.
      split; [ discriminate | ].
      intros (_ & _ & Hnz). exfalso. apply Hnz. reflexivity.
    - rewrite is_denormal_not_finite_nonzero by exact I.
      split; [ discriminate | intros (Hf & _); discriminate Hf ].
    - rewrite is_denormal_not_finite_nonzero by exact I.
      split; [ discriminate | intros (Hf & _); discriminate Hf ].
    - unfold is_denormal, numeric_limits_min.
      rewrite (is_denormal_finite _ _ (prec_pos T) s m e Hv).
      rewrite (below_min_finite _ _ (prec_pos T) s m e Hv).
      split.
      + intros H. repeat split; try apply H.
        apply SF2Q_finite_nonzero.
      + intros (_ & H & _). exact H. }
  split; [ exact Hiff | ].
  split; [ | split ].
  - intros _ Hz. apply not_true_is_false. intros Hd.
    apply Hiff in Hd. destruct Hd as (_ & _ & Hnz). now apply Hnz.
  - intros _ Hge. apply not_true_is_false. intros Hd.
    apply Hiff in Hd. destruct Hd as (_ & Hlt & _).
    apply (Qlt_irrefl (Qabs (SF2Q r))).
    eapply Qlt_le_trans; [ exact Hlt | exact Hge ].
  - intros Hf. apply not_true_is_false. intros Hd.
    apply Hiff in Hd. destruct Hd as (Hf' & _). congruence.
Qed.

Lemma is_denormal_1e_310 :
  valid double d_1e_310 = true /\
  (is_denormal double d_1e_310 = true <->
   is_finite d_1e_310 = true /\
   (Qabs (SF2Q d_1e_310) < SF2Q (numeric_limits_min double))%Q /\
   ~ (SF2Q d_1e_310 == 0)%Q).
Proof.
  split; [ reflexivity | ].
  apply (is_denormal_iff_below_min double d_1e_310). reflexivity.
Defined.

(** The detector holds exactly on the values IEEE-754 classes as subnormal. *)
Lemma is_denormal_iff_subnormal (T : REAL) (r : spec_float) :
  valid T r = true ->
  (is_denormal T r = true <->
   SFclassify (prec T) r = FloatClass.PSubn \/
   SFclassify (prec T) r = FloatClass.NSubn).
Proof.
  intros Hv. destruct r as [s | s | | s m e].
  - rewrite is_denormal_not_finite_nonzero by exact I.
    destruct s; simpl; split; intros H; try discriminate;
      destruct H; discriminate.
  - rewrite is_denormal_not_finite_nonzero by exact I.
    destruct s; simpl; split; intros H; try discriminate;
      destruct H; discriminate.
  - rewrite is_denormal_not_finite_nonzero by exact I.
    simpl; split; intros H; try discriminate; destruct H; discriminate.
  - unfold is_denormal.
    rewrite (is_denormal_finite _ _ (prec_pos T) s m e Hv).
    rewrite (bounded_digits _ _ (prec_pos T) m e Hv).
    unfold SFclassify.
    destruct (Z.eqb_spec (Zpos (digits2_pos m)) (prec T)) as [Hd | Hd];
      destruct s; split; intros H; try contradiction;
      try (destruct H; discriminate); try exact Hd; auto.
Qed.

(** At the boundary, for both widths and both signs: the least normal and
    the value one unit in the last place above it are not detected, the
    value one unit below it is, and so is the least subnormal. *)
Example double_boundary :
  is_denormal double (S754_finite false 4503599627370496 (-1074)) = false /\
  is_denormal double (S754_finite false 4503599627370497 (-1074)) = false /\
  is_denormal double (S754_finite false 4503599627370495 (-1074)) = true /\
  is_denormal double (S754_finite true 4503599627370496 (-1074)) = false /\
  is_denormal double (S754_finite true 4503599627370495 (-1074)) = true /\
  is_denormal double d_denorm_min = true /\
  is_denormal double (S754_zero true) = false /\
  is_denormal double (S754_infinity false) = false /\
  is_denormal double S754_nan = false.
Proof. repeat split. Qed.

Example float_boundary :
  is_denormal float (S754_finite false 8388608 (-149)) = false /\
  is_denormal float (S754_finite false 8388609 (-149)) = false /\
  is_denormal float (S754_finite false 8388607 (-149)) = true /\
  is_denormal float (S754_finite true 8388608 (-149)) = false /\
  is_denormal float (S754_finite true 8388607 (-149)) = true /\
  is_denormal float (S754_finite false 1 (-149)) = true /\
  is_denormal float (S754_zero false) = false.
Proof. repeat split. Qed.

(** ** The flush policy *)

Section FlushPolicy.
Context {host : interflop_host}.

Lemma flush_not_denormal (T : REAL) (res : spec_float)
    (ctx : checkdenormal_context_t) (w : World) :
  is_denormal T res = false -> flushToZeroAndCheck T res ctx w = (res, w).
Proof. unfold flushToZeroAndCheck. now intros ->. Qed.

Lemma flush_denormal (T : REAL) (res : spec_float)
    (ctx : checkdenormal_context_t) (w : World) :
  is_denormal T res = true ->
  flushToZeroAndCheck T res ctx w =
  (if flushtozero ctx then S754_zero false else res, notified w).
Proof.
  unfold flushToZeroAndCheck, notified. intros ->.
  now destruct (flushtozero ctx).
Qed.

Lemma zero_not_denormal (T : REAL) (s : bool) :
  is_denormal T (S754_zero s) = false.
Proof. now apply is_denormal_not_finite_nonzero. Qed.

(** C3: with [flushToZero] off, [flushToZeroAndCheck] leaves the result slot
    as it found it whatever the detector says, and when the detector holds
    and a hook is registered the hook runs. *)
Theorem flush_disabled_keeps_result (T : REAL) (res : spec_float)
    (ctx : checkdenormal_context_t) (w : World) :
  flushtozero ctx = false ->
  fst (flushToZeroAndCheck T res ctx w) = res /\
  (forall handler,
      interflop_denormalHandler = Some handler ->
      is_denormal T res = true ->
      snd (flushToZeroAndCheck T res ctx w) = handler w).
Proof.
  intros Hoff. split.
  - destruct (is_denormal T res) eqn:Hd.
    + rewrite flush_denormal by exact Hd. now rewrite Hoff.
    + now rewrite flush_not_denormal.
  - intros handler Hh Hd. rewrite flush_denormal by exact Hd.
    unfold notified. now rewrite Hh.
Qed.

(** C4: with [flushToZero] on, a second [flushToZeroAndCheck] on the slot
    changes nothing: neither the slot, which holds a zero whenever the
    first one flushed, nor the world, since the hook does not run again on
    that zero. *)
Theorem flush_idempotent (T : REAL) (res : spec_float)
    (ctx : checkdenormal_context_t) (w : World) :
  flushtozero ctx = true ->
  flushToZeroAndCheck T
    (fst (flushToZeroAndCheck T res ctx w)) ctx
    (snd (flushToZeroAndCheck T res ctx w))
  = flushToZeroAndCheck T res ctx w.
Proof.
  intros Hon. destruct (is_denormal T res) eqn:Hd.
  - rewrite (flush_denormal T res) by exact Hd. rewrite Hon. simpl.
    apply flush_not_denormal, zero_not_denormal.
  - rewrite (flush_not_denormal T res) by exact Hd. simpl.
    now apply flush_not_denormal.
Qed.

(** C10: a flush does not keep the sign.  Whenever the detector holds and
    [flushToZero] is on, the slot ends as the positive zero, also for a
    negative value; it never ends as the negative zero. *)
Theorem flush_stores_positive_zero (T : REAL) (res : spec_float)
    (ctx : checkdenormal_context_t) (w : World) :
  is_denormal T res = true ->
  flushtozero ctx = true ->
  fst (flushToZeroAndCheck T res ctx w) = S754_zero false /\
  fst (flushToZeroAndCheck T res ctx w) <> S754_zero true.
Proof.
  intros Hd Hon. rewrite flush_denormal by exact Hd. rewrite Hon. simpl.
  split; [ reflexivity | discriminate ].
Qed.

(** C5: [add_double] in a build with [IFCD_DOOP], on [1e-310] and [0].  The
    sum is [1e-310] itself, a subnormal on which the detector holds; with
    [flushToZero] on the slot ends at the positive zero, and with it off at
    [1e-310]. *)
Theorem add_double_1e_310 (res : spec_float) (w : World) :
  let sum := SFadd (prec double) (emax double) d_1e_310 (S754_zero false) in
  sum = d_1e_310 /\
  SFclassify (prec double) sum = FloatClass.PSubn /\
  is_denormal double sum = true /\
  fst (add_double true d_1e_310 (S754_zero false) res
         {| flushtozero := true |} w) = S754_zero false /\
  fst (add_double true d_1e_310 (S754_zero false) res
         {| flushtozero := false |} w) = d_1e_310.
Proof. repeat split. Qed.

(** In a build without [IFCD_DOOP] the two fma interceptors return with
    the slot and the world as they were, whatever the slot holds. *)
Theorem fma_observe_mode_does_nothing (a b c res : spec_float)
    (ctx : checkdenormal_context_t) (w : World) :
  fma_float false a b c res ctx w = (res, w) /\
  fma_double false a b c res ctx w = (res, w).
Proof. split; reflexivity. Qed.

End FlushPolicy.

Lemma flush_disabled_neg_denorm_min :
  fst (flushToZeroAndCheck (host := Hosts.registered) double d_neg_denorm_min
         {| flushtozero := false |} []) = d_neg_denorm_min /\
  snd (flushToZeroAndCheck (host := Hosts.registered) double d_neg_denorm_min
         {| flushtozero := false |} []) = ["denormal"%string].
Proof.
  destruct (flush_disabled_keeps_result (host := Hosts.registered) double
              d_neg_denorm_min {| flushtozero := false |} [] eq_refl)
    as [Hslot Hhook].
  split; [ exact Hslot | ].
  exact (Hhook (fun w => "denormal"%string :: w) eq_refl eq_refl).
Defined.

Lemma flush_idempotent_float_subnormal :
  flushToZeroAndCheck (host := Hosts.registered) float
    (S754_zero false) {| flushtozero := true |} ["denormal"%string]
  = (S754_zero false, ["denormal"%string]).
Proof.
  exact (flush_idempotent (host := Hosts.registered) float
           (S754_finite true 5 (-149)) {| flushtozero := true |} [] eq_refl).
Defined.

Lemma flush_neg_denorm_min_positive_zero :
  fst (flushToZeroAndCheck (host := Hosts.registered) double d_neg_denorm_min
         {| flushtozero := true |} []) = S754_zero false.
Proof.
  apply (flush_stores_positive_zero (host := Hosts.registered) double
           d_neg_denorm_min {| flushtozero := true |} []); reflexivity.
Defined.

(** C2, on the code: the least positive double sits in the slot,
    [flushToZero] is on and a hook is registered.  [fma_double] built without
    [IFCD_DOOP] leaves the slot and the log untouched, where
    [flushToZeroAndCheck], and with it [add_double] of the same build, zero
    the slot and run the hook. *)
Theorem fma_observe_mode_misses_flush :
  fma_double (host := Hosts.registered) false
    d_denorm_min d_denorm_min d_denorm_min d_denorm_min
    {| flushtozero := true |} [] = (d_denorm_min, []) /\
  flushToZeroAndCheck (host := Hosts.registered) double d_denorm_min
    {| flushtozero := true |} [] = (S754_zero false, ["denormal"%string]) /\
  add_double (host := Hosts.registered) false
    d_denorm_min d_denorm_min d_denorm_min
    {| flushtozero := true |} [] = (S754_zero false, ["denormal"%string]) /\
  cast_double_to_float (host := Hosts.registered) false
    d_denorm_min (S754_finite false 1 (-149))
    {| flushtozero := true |} [] = (S754_zero false, ["denormal"%string]).
Proof. repeat split. Qed.

(** ** Configuration *)

Lemma configure_overwrites (conf : checkdenormal_conf_t)
    (ctx : checkdenormal_context_t) :
  flushtozero (configure conf ctx) = conf_flushtozero conf.
Proof. reflexivity. Qed.

Lemma parse_opt_flush_to_zero (arg : option string)
    (ctx : checkdenormal_context_t) :
  parse_opt KEY_FTZ arg ctx = (0, {| flushtozero := true |}).
Proof. reflexivity. Qed.

Lemma last_cons_default {A} (l : list A) (a d : A) :
  last (a :: l) d = last l a.
Proof.
  revert a d. induction l as [ | b l IH]; intros a d.
  - reflexivity.
  - change (last (a :: b :: l) d) with (last (b :: l) d).
    now rewrite !IH.
Qed.


Section Configuration.
Context {host : interflop_host}.
Variable IFCD_DOOP : bool.
Variable argp_parse :
  argp_t -> list string -> M (checkdenormal_context_t * World) error_t.
Hypothesis argp_parse_registered : interflop_argp_parse = Some argp_parse.
Hypothesis argp_parse_is_libc :
  forall a argv s, argp_parse a argv s = Argp.argp_parse a argv s.




End Configuration.



(** Through [cli] on that host: the value of the argument is not looked
    at, a plain argument sets the flag as the option does, and an empty
    command line leaves the flag alone. *)
Example cli_argument_ignored :
  cli (host := Hosts.registered) ["prog"; "--flush-to-zero=false"]
    ({| flushtozero := false |}, [])
  = Ok tt ({| flushtozero := true |}, []).
Proof. reflexivity. Qed.

Example cli_plain_argument :
  cli (host := Hosts.registered) ["prog"; "input.txt"]
    ({| flushtozero := false |}, [])
  = Ok tt ({| flushtozero := true |}, []).
Proof. reflexivity. Qed.

Example cli_abbreviated_option :
  cli (host := Hosts.registered) ["prog"; "--flush"; "1"]
    ({| flushtozero := false |}, [])
  = Ok tt ({| flushtozero := true |}, []).
Proof. reflexivity. Qed.

Example cli_help :
  cli (host := Hosts.registered) ["prog"; "--help"; "--flush-to-zero=1"]
    ({| flushtozero := false |}, [])
  = Exit 0 ({| flushtozero := false |}, []).
Proof. reflexivity. Qed.

Example cli_no_argument :
  cli (host := Hosts.registered) ["prog"] ({| flushtozero := false |}, [])
  = Ok tt ({| flushtozero := false |}, []).
Proof. reflexivity. Qed.

Example cli_then_configure :
  match cli (host := Hosts.registered) ["prog"; "--flush-to-zero=1"]
          ({| flushtozero := false |}, []) with
  | Ok _ (ctx, _) =>
      flushtozero (configure {| conf_flushtozero := false |} ctx)
  | _ => true
  end = false.
Proof. reflexivity. Qed.

(** ** Command line *)

Section CommandLine.
Context {host : interflop_host}.

(** C9: without an argument parser from the host, [cli] calls
    [interflop_panic] with the context and the world as they were.  With
    one, [cli] hands it [argp], whose callback is [parse_opt]; and
    [parse_opt] answers every key but that of the flush-to-zero option with
    [ARGP_ERR_UNKNOWN], an error, leaving the context alone. *)
Theorem cli_fatal_conditions :
  (interflop_argp_parse = None ->
   forall argv ctx w, exists msg, cli argv (ctx, w) = Panic msg (ctx, w)) /\
  (forall argp_parse,
      interflop_argp_parse = Some argp_parse ->
      forall argv s,
        cli argv s = bind (argp_parse argp argv) (fun _ => ret tt) s) /\
  argp_parser argp = parse_opt /\
  (forall key arg ctx,
      key <> KEY_FTZ ->
      parse_opt key arg ctx = (ARGP_ERR_UNKNOWN, ctx)) /\
  ARGP_ERR_UNKNOWN <> 0.
Proof.
  split; [ | split; [ | split; [ | split ] ] ].
  - intros Hnone argv ctx w. unfold cli. rewrite Hnone.
    eexists. reflexivity.
  - intros argp_parse Hsome argv s. unfold cli. now rewrite Hsome.
  - reflexivity.
  - intros key arg ctx Hkey. unfold parse_opt.
    destruct (Z.eqb_spec key KEY_FTZ); [ contradiction | reflexivity ].
  - discriminate.
Qed.
End CommandLine.

Lemma cli_unregistered_panics :
  (exists msg,
      cli (host := Hosts.unregistered) ["prog"; "--flush-to-zero"]
        ({| flushtozero := false |}, [])
      = Panic msg ({| flushtozero := false |}, [])) /\
  parse_opt 1 None {| flushtozero := false |}
  = (ARGP_ERR_UNKNOWN, {| flushtozero := false |}).
Proof.
  destruct (cli_fatal_conditions (host := Hosts.unregistered))
    as (Hnull & _ & _ & Hkey & _).
  split.
  - apply (Hnull eq_refl).
  - apply Hkey. discriminate.
Defined.

(** On the host with the parser of the C library, an option outside the
    table ends the process and leaves the flag alone. *)
Example cli_unknown_option :
  cli (host := Hosts.registered) ["prog"; "--verbose"]
    ({| flushtozero := false |}, [])
  = Exit 64 ({| flushtozero := false |}, []).
Proof. reflexivity. Qed.

(** ** Lifecycle *)

Lemma bind_Ok {S A B} (c : M S A) (k : A -> M S B) (s s' : S) (b : B) :
  bind c k s = Ok b s' ->
  exists a s1, c s = Ok a s1 /\ k a s1 = Ok b s'.
Proof.
  unfold bind. destruct (c s) as [a s1 | msg s1 | s1 | st s1]; try discriminate.
  intros H. now exists a, s1.
Qed.

Ltac invert_bind H :=
  let a := fresh "a" in
  let s := fresh "s" in
  let H1 := fresh "Hfst" in
  apply bind_Ok in H; destruct H as (a & s & H1 & H).

Section Lifecycle.
Context {host : interflop_host}.
Variable IFCD_DOOP : bool.


(** [pre_init] returns once the four primitives are registered and the
    allocation succeeds. *)
Lemma pre_init_returns (panic : interflop_panic_t) (stream : File)
    (w : World) handler malloc strcasecmp strtol block :
  interflop_denormalHandler = Some handler ->
  interflop_malloc = Some malloc ->
  interflop_strcasecmp = Some strcasecmp ->
  interflop_strtol = Some strtol ->
  let w1 := logger_init panic stream backend_name
              (interflop_set_handler "panic" panic w) in
  fst (malloc w1) = Some block ->
  pre_init panic stream w =
  Ok {| stderr_stream := stream;
        context := {| flushtozero := false |} |} (snd (malloc w1)).
Proof.
  intros Hh Hm Hs Ht w1 Hblock.
  unfold pre_init, _checkdenormal_check_stdlib,
    _checkdenormal_alloc_context, bind, lift.
  rewrite Hh, Hm, Hs, Ht. simpl. fold w1.
  destruct (malloc w1) as [p w2]. simpl in Hblock. subst p. reflexivity.
Qed.




(** [init] returns once [getenv] is registered, and [strcasecmp] too in
    case the variable is set. *)
Lemma init_returns (ctx : checkdenormal_context_t) (w : World)
    getenv strcasecmp :
  interflop_getenv = Some getenv ->
  interflop_strcasecmp = Some strcasecmp ->
  exists w',
    init IFCD_DOOP ctx w = Ok (interflop_backend_checkdenormal IFCD_DOOP) w'.
Proof.
  intros Hg Hs.
  unfold init, print_information_header, call_getenv, call_strcasecmp,
    bind, ret, lift.
  rewrite Hg, Hs.
  destruct (getenv "VFC_BACKENDS_SILENT_LOAD"%string w) as [env | ].
  - destruct (negb (strcasecmp env "True"%string =? 0)); eexists; reflexivity.
  - eexists; reflexivity.
Qed.

(** C8: in the table [init] returns, the two comparison slots and the
    function-entry, function-exit and user-call slots are Null; the add,
    sub, mul and div slots of both widths, the two fma slots, the cast slot
    and the finalize slot hold this backend's functions. *)
Theorem init_table (ctx : checkdenormal_context_t) (w w' : World)
    (table : interflop_backend_interface_t) :
  init IFCD_DOOP ctx w = Ok table w' ->
  (interflop_cmp_float table = None /\
   interflop_cmp_double table = None /\
   interflop_enter_function table = None /\
   interflop_exit_function table = None /\
   interflop_user_call table = None) /\
  (interflop_add_float table = Some (add_float IFCD_DOOP) /\
   interflop_sub_float table = Some (sub_float IFCD_DOOP) /\
   interflop_mul_float table = Some (mul_float IFCD_DOOP) /\
   interflop_div_float table = Some (div_float IFCD_DOOP) /\
   interflop_add_double table = Some (add_double IFCD_DOOP) /\
   interflop_sub_double table = Some (sub_double IFCD_DOOP) /\
   interflop_mul_double table = Some (mul_double IFCD_DOOP) /\
   interflop_div_double table = Some (div_double IFCD_DOOP)) /\
  (interflop_fma_float table = Some (fma_float IFCD_DOOP) /\
   interflop_fma_double table = Some (fma_double IFCD_DOOP) /\
   interflop_cast_double_to_float table
   = Some (cast_double_to_float IFCD_DOOP) /\
   interflop_finalize table = Some finalize).
Proof.
  intros Hinit. unfold init in Hinit. invert_bind Hinit.
  unfold ret in Hinit. injection Hinit as <- _.
  repeat split.
Qed.

End Lifecycle.


Lemma init_table_registered :
  interflop_cmp_float (interflop_backend_checkdenormal
                         (host := Hosts.registered) true) = None /\
  interflop_add_double (interflop_backend_checkdenormal
                          (host := Hosts.registered) true)
  = Some (add_double true).
Proof.
  destruct (init_table (host := Hosts.registered) true
              {| flushtozero := false |} [] _ _ eq_refl)
    as ((Hcmp & _) & (_ & _ & _ & _ & Hadd & _) & _).
  split; [ exact Hcmp | exact Hadd ].
Defined.

(** * Further properties of the code *)

(** ** The detector *)

(** The guard of [flushToZeroAndCheck] on the rationals, for use below. *)
Lemma is_denormal_below_min (T : REAL) (r : spec_float) :
  valid T r = true ->
  (is_denormal T r = true <->
   is_finite r = true /\
   (Qabs (SF2Q r) < SF2Q (numeric_limits_min T))%Q /\
   ~ (SF2Q r == 0)%Q).
Proof.
  intros Hv. destruct r as [s | s | | s m e].
  - rewrite is_denormal_not_finite_nonzero by exact I.
    split; [ discriminate | ].
    intros (_ & _ & Hnz). exfalso. apply Hnz. reflexivity.
  - rewrite is_denormal_not_finite_nonzero by exact I.
    split; [ discriminate | intros (Hf & _); discriminate Hf ].
  - rewrite is_denormal_not_finite_nonzero by exact I.
    split; [ discriminate | intros (Hf & _); discriminate Hf ].
  - unfold is_denormal, numeric_limits_min.
    rewrite (is_denormal_finite _ _ (prec_pos T) s m e Hv).
    rewrite (below_min_finite _ _ (prec_pos T) s m e Hv).
    split.
    + intros H. repeat split; try apply H.
      apply SF2Q_finite_nonzero.
    + intros (_ & H & _). exact H.
Qed.

Lemma min_positive (T : REAL) : (0 < SF2Q (numeric_limits_min T))%Q.
Proof.
  unfold numeric_limits_min, Binary.numeric_limits_min, SF2Q.
  apply Qmult_lt_0_compat; [ reflexivity | apply two_pow_pos ].
Qed.

(** X1: the guard does not look at the sign: a value, its opposite and its
    absolute value are detected together. *)
Theorem is_denormal_sign_symmetric (T : REAL) (r : spec_float) :
  is_denormal T (SFopp r) = is_denormal T r /\
  is_denormal T (SFabs r) = is_denormal T r.
Proof.
  destruct r as [s | s | | s m e]; try destruct s; split; reflexivity.
Qed.

(** X2: the guard is closed downwards: below a detected value, every
    non-zero value of the width is detected as well. *)
Theorem is_denormal_downward_closed (T : REAL) (r r' : spec_float) :
  valid T r = true ->
  valid T r' = true ->
  is_denormal T r = true ->
  is_finite r' = true ->
  ~ (SF2Q r' == 0)%Q ->
  (Qabs (SF2Q r') <= Qabs (SF2Q r))%Q ->
  is_denormal T r' = true.
Proof.
  intros Hv Hv' Hd Hf' Hnz Hle.
  apply (is_denormal_below_min T r Hv) in Hd. destruct Hd as (_ & Hlt & _).
  apply (is_denormal_below_min T r' Hv').
  repeat split; try assumption.
  eapply Qle_lt_trans; [ exact Hle | exact Hlt ].
Qed.

Lemma is_denormal_downward_closed_1e_310 :
  is_denormal double d_neg_denorm_min = true.
Proof.
  apply (is_denormal_downward_closed double d_1e_310 d_neg_denorm_min);
    try reflexivity.
  - intros H. discriminate H.
  - vm_compute. discriminate.
Defined.

(** ** The flush policy and the interceptors *)

Section Interceptors.
Context {host : interflop_host}.

Lemma flush_output_cases (T : REAL) (res : spec_float)
    (ctx : checkdenormal_context_t) (w : World) :
  flushToZeroAndCheck T res ctx w = (res, w) \/
  (is_denormal T res = true /\
   flushToZeroAndCheck T res ctx w =
   (if flushtozero ctx then S754_zero false else res, notified w)).
Proof.
  destruct (is_denormal T res) eqn:Hd.
  - right. split; [ reflexivity | now apply flush_denormal ].
  - left. now apply flush_not_denormal.
Qed.

Lemma flush_output_not_denormal (T : REAL) (res : spec_float)
    (ctx : checkdenormal_context_t) (w : World) :
  flushtozero ctx = true ->
  is_denormal T (fst (flushToZeroAndCheck T res ctx w)) = false.
Proof.
  intros Hon. destruct (is_denormal T res) eqn:Hd.
  - rewrite flush_denormal by exact Hd. rewrite Hon. simpl.
    apply zero_not_denormal.
  - rewrite flush_not_denormal by exact Hd. exact Hd.
Qed.

Lemma flush_disabled_output (T : REAL) (res : spec_float)
    (ctx : checkdenormal_context_t) (w : World) :
  flushtozero ctx = false ->
  fst (flushToZeroAndCheck T res ctx w) = res.
Proof.
  intros Hoff. destruct (flush_output_cases T res ctx w) as [H | [_ H]];
    rewrite H; [ reflexivity | now rewrite Hoff ].
Qed.

Lemma flush_world_cases (T : REAL) (res : spec_float)
    (ctx : checkdenormal_context_t) (w : World) :
  snd (flushToZeroAndCheck T res ctx w) = w \/
  snd (flushToZeroAndCheck T res ctx w) = notified w.
Proof.
  destruct (flush_output_cases T res ctx w) as [H | [_ H]]; rewrite H;
    [ now left | now right ].
Qed.

Lemma interceptor_unfold (doop : bool) (op : arith) (T : REAL)
    (a b res : spec_float) (ctx : checkdenormal_context_t) (w : World) :
  interceptor doop op T a b res ctx w =
  flushToZeroAndCheck T (if doop then ieee_op op T a b else res) ctx w.
Proof. destruct op, T, doop; reflexivity. Qed.

(** X3: [flushToZeroAndCheck] keeps the slot a value of its width and moves
    it by less than the least normal magnitude of that width. *)
Theorem flush_error_below_min (T : REAL) (res : spec_float)
    (ctx : checkdenormal_context_t) (w : World) :
  valid T res = true ->
  valid T (fst (flushToZeroAndCheck T res ctx w)) = true /\
  (Qabs (SF2Q res - SF2Q (fst (flushToZeroAndCheck T res ctx w)))
   < SF2Q (numeric_limits_min T))%Q.
Proof.
  intros Hv.
  assert (Hsame : (Qabs (SF2Q res - SF2Q res) < SF2Q (numeric_limits_min T))%Q).
  { setoid_replace (SF2Q res - SF2Q res)%Q with 0%Q by ring.
    apply min_positive. }
  destruct (flush_output_cases T res ctx w) as [H | [Hd H]]; rewrite H.
  - split; [ exact Hv | exact Hsame ].
  - destruct (flushtozero ctx); cbn [fst].
    + split; [ reflexivity | ].
      apply (is_denormal_below_min T res Hv) in Hd.
      destruct Hd as (_ & Hlt & _).
      change (SF2Q (S754_zero false)) with 0%Q.
      setoid_replace (SF2Q res - 0)%Q with (SF2Q res) by ring.
      exact Hlt.
    + split; [ exact Hv | exact Hsame ].
Qed.

(** X4: with [flushToZero] on, no interceptor that reaches
    [flushToZeroAndCheck] leaves a detected value in the slot: the four
    arithmetic ones and the cast in either build, the two fma ones in a
    build with [IFCD_DOOP]. *)
Theorem interceptors_leave_no_denormal (doop : bool)
    (ctx : checkdenormal_context_t) (w : World) :
  flushtozero ctx = true ->
  (forall op T a b res,
      is_denormal T (fst (interceptor doop op T a b res ctx w)) = false) /\
  (forall a res,
      is_denormal float (fst (cast_double_to_float doop a res ctx w))
      = false) /\
  (forall a b c res,
      is_denormal float (fst (fma_float true a b c res ctx w)) = false /\
      is_denormal double (fst (fma_double true a b c res ctx w)) = false).
Proof.
  intros Hon. split; [ | split ].
  - intros op T a b res. rewrite interceptor_unfold.
    now apply flush_output_not_denormal.
  - intros a res. unfold cast_double_to_float.
    now apply flush_output_not_denormal.
  - intros a b c res. unfold fma_float, fma_double.
    split; now apply flush_output_not_denormal.
Qed.

(** X5: an arithmetic interceptor is transparent on a value that is not
    detected.  In a build with [IFCD_DOOP] it stores [a op b] as IEEE-754
    computes it and leaves the world alone, whatever the slot held and
    whatever the flag; in a build without, it leaves slot and world alone. *)
Theorem interceptor_transparent (op : arith) (T : REAL)
    (a b res : spec_float) (ctx : checkdenormal_context_t) (w : World) :
  (is_denormal T (ieee_op op T a b) = false ->
   interceptor true op T a b res ctx w = (ieee_op op T a b, w)) /\
  (is_denormal T res = false ->
   interceptor false op T a b res ctx w = (res, w)).
Proof.
  split; intros Hd; rewrite interceptor_unfold;
    now apply flush_not_denormal.
Qed.

(** X6: with [flushToZero] off, a build with [IFCD_DOOP] never alters a
    result: the slot ends with [a op b], with the narrowed double, with the
    fused multiply-add of the host. *)
Theorem flush_disabled_exact_results (ctx : checkdenormal_context_t)
    (w : World) :
  flushtozero ctx = false ->
  (forall op T a b res,
      fst (interceptor true op T a b res ctx w) = ieee_op op T a b) /\
  (forall a res,
      fst (cast_double_to_float true a res ctx w) = cast_to_float a) /\
  (forall a b c res,
      fst (fma_float true a b c res ctx w) = interflop_fma_binary32 a b c /\
      fst (fma_double true a b c res ctx w) = interflop_fma_binary64 a b c).
Proof.
  intros Hoff. split; [ | split ].
  - intros op T a b res. rewrite interceptor_unfold.
    now apply flush_disabled_output.
  - intros a res. unfold cast_double_to_float.
    now apply flush_disabled_output.
  - intros a b c res. unfold fma_float, fma_double.
    split; now apply flush_disabled_output.
Qed.

(** X7: an interceptor runs the hook at most once: the world it returns is
    the one it got or the hook applied once to it; and when no hook is
    registered the world is the one it got. *)
Theorem interceptors_hook_at_most_once (doop : bool)
    (ctx : checkdenormal_context_t) (w : World) :
  (forall op T a b res,
      snd (interceptor doop op T a b res ctx w) = w \/
      snd (interceptor doop op T a b res ctx w) = notified w) /\
  (forall a res,
      snd (cast_double_to_float doop a res ctx w) = w \/
      snd (cast_double_to_float doop a res ctx w) = notified w) /\
  (forall a b c res,
      (snd (fma_float doop a b c res ctx w) = w \/
       snd (fma_float doop a b c res ctx w) = notified w) /\
      (snd (fma_double doop a b c res ctx w) = w \/
       snd (fma_double doop a b c res ctx w) = notified w)) /\
  (interflop_denormalHandler = None -> notified w = w).
Proof.
  split; [ | split; [ | split ] ].
  - intros op T a b res. rewrite interceptor_unfold.
    apply flush_world_cases.
  - intros a res. unfold cast_double_to_float. apply flush_world_cases.
  - intros a b c res. unfold fma_float, fma_double.
    destruct doop; split; try apply flush_world_cases; now left.
  - intros Hnone. unfold notified. now rewrite Hnone.
Qed.

(** X8: exact cancellation is not reported.  In a build with [IFCD_DOOP],
    subtracting a finite value from itself stores the positive zero and
    leaves the world alone, at both widths and whatever the flag. *)
Theorem sub_self_stores_zero (T : REAL) (s : bool) (m : positive) (e : Z)
    (res : spec_float) (ctx : checkdenormal_context_t) (w : World) :
  interceptor true Sub T (S754_finite s m e) (S754_finite s m e) res ctx w
  = (S754_zero false, w).
Proof.
  rewrite interceptor_unfold.
  assert (Hsub : ieee_op Sub T (S754_finite s m e) (S754_finite s m e)
                 = S754_zero false).
  { unfold ieee_op, SFsub. rewrite Z.sub_diag. reflexivity. }
  rewrite Hsub. apply flush_not_denormal, zero_not_denormal.
Qed.

End Interceptors.

Lemma flush_error_below_min_1e_310 :
  (Qabs (SF2Q d_1e_310 - SF2Q (S754_zero false))
   < SF2Q (numeric_limits_min double))%Q.
Proof.
  exact (proj2 (flush_error_below_min (host := Hosts.registered) double
                  d_1e_310 {| flushtozero := true |} [] eq_refl)).
Defined.

Lemma interceptors_leave_no_denormal_div :
  is_denormal double
    (fst (div_double (host := Hosts.registered) true
            d_1e_310 (S754_finite false 1 1) S754_nan
            {| flushtozero := true |} [])) = false.
Proof.
  exact (proj1 (interceptors_leave_no_denormal (host := Hosts.registered)
                  true {| flushtozero := true |} [] eq_refl)
           Div double d_1e_310 (S754_finite false 1 1) S754_nan).
Defined.

Lemma interceptor_transparent_mul :
  mul_float (host := Hosts.registered) true
    (S754_finite false 12582912 (-23)) (S754_finite false 8388608 (-22))
    S754_nan {| flushtozero := true |} []
  = (S754_finite false 12582912 (-22), []).
Proof.
  exact (proj1 (interceptor_transparent (host := Hosts.registered) Mul float
                  (S754_finite false 12582912 (-23))
                  (S754_finite false 8388608 (-22))
                  S754_nan {| flushtozero := true |} []) eq_refl).
Defined.

Lemma flush_disabled_exact_results_add :
  fst (add_double (host := Hosts.registered) true d_1e_310 d_denorm_min
         S754_nan {| flushtozero := false |} [])
  = S754_finite false 20240225330732 (-1074).
Proof.
  exact (proj1 (flush_disabled_exact_results (host := Hosts.registered)
                  {| flushtozero := false |} [] eq_refl)
           Add double d_1e_310 d_denorm_min S754_nan).
Defined.

Lemma interceptors_hook_at_most_once_unregistered :
  notified (host := Hosts.unregistered) ["log"%string] = ["log"%string].
Proof.
  exact (proj2 (proj2 (proj2
           (interceptors_hook_at_most_once (host := Hosts.unregistered)
              true {| flushtozero := true |} ["log"%string]))) eq_refl).
Defined.

(** ** The parser callback and the option table *)

Lemma parse_opt_flag (key : Z) (arg : option string)
    (ctx : checkdenormal_context_t) :
  flushtozero (snd (parse_opt key arg ctx)) =
  flushtozero ctx || (key =? KEY_FTZ).
Proof.
  unfold parse_opt. destruct (key =? KEY_FTZ); simpl.
  - now rewrite orb_true_r.
  - now rewrite orb_false_r.
Qed.

(** X9: the callback can set the flag and cannot clear it.  After it has run
    on any sequence of keys, with any arguments, the flag is on exactly when
    it was on before or the key of the flush-to-zero option was among them. *)
Theorem parse_keys_flag (ks : list (Z * option string))
    (ctx : checkdenormal_context_t) :
  flushtozero (parse_keys ks ctx) =
  flushtozero ctx || existsb (fun k => fst k =? KEY_FTZ) ks.
Proof.
  unfold parse_keys. revert ctx.
  induction ks as [ | k ks IH]; intros ctx; simpl.
  - now rewrite orb_false_r.
  - rewrite IH, parse_opt_flag. now rewrite orb_assoc.
Qed.

(** X10: the option table and the callback agree.  The table is one named
    option followed by the all-zero terminator, and the callback accepts the
    key of every named option of the table, setting the flag. *)
Theorem options_accepted_by_parse_opt :
  last options end_option = end_option /\
  opt_name end_option = None /\
  (forall o,
      In o (removelast options) ->
      opt_name o = Some key_ftz_str /\
      forall arg ctx,
        parse_opt (opt_key o) arg ctx = (0, {| flushtozero := true |})).
Proof.
  split; [ reflexivity | split; [ reflexivity | ] ].
  intros o [<- | []]. split; reflexivity.
Qed.

(** X11: the callback cannot tell the flush-to-zero option from a plain
    command-line argument: [KEY_FTZ] is the key [ARGP_KEY_ARG] under which a
    parser receives every such argument, so it sets the flag and reports
    success there.  The other keys by which [argp_parse] reports its
    progress are answered with [ARGP_ERR_UNKNOWN]. *)
Theorem parse_opt_argument_key :
  KEY_FTZ = ARGP_KEY_ARG /\
  (forall arg ctx,
      parse_opt ARGP_KEY_ARG arg ctx = (0, {| flushtozero := true |})) /\
  (forall key arg ctx,
      In key argp_event_keys ->
      parse_opt key arg ctx = (ARGP_ERR_UNKNOWN, ctx)).
Proof.
  split; [ reflexivity | split; [ reflexivity | ] ].
  intros key arg ctx Hin. simpl in Hin.
  repeat (destruct Hin as [<- | Hin]; [ reflexivity | ]).
  contradiction.
Qed.

Lemma parse_opt_argument_key_end :
  parse_opt ARGP_KEY_END None {| flushtozero := false |}
  = (ARGP_ERR_UNKNOWN, {| flushtozero := false |}).
Proof.
  apply (proj2 (proj2 parse_opt_argument_key)). simpl. now left.
Defined.

Lemma options_accepted_by_parse_opt_first :
  parse_opt KEY_FTZ (Some "no"%string) {| flushtozero := false |}
  = (0, {| flushtozero := true |}).
Proof.
  exact (proj2 (proj2 (proj2 options_accepted_by_parse_opt)
                  (hd end_option options) (or_introl eq_refl))
           (Some "no"%string) {| flushtozero := false |}).
Defined.

(** ** Pre-initialisation and initialisation *)

Ltac unfold_pre_init :=
  unfold pre_init, _checkdenormal_check_stdlib, _checkdenormal_alloc_context,
    _checkdenormal_init_context, INTERFLOP_CHECK_IMPL, bind, lift, ret,
    interflop_panic, null_call, world_before_alloc.

Ltac unfold_init :=
  unfold init, print_information_header, call_getenv, call_strcasecmp,
    bind, lift, ret, null_call, world_after_header.

Section Startup.
Context {host : interflop_host}.
Variable IFCD_DOOP : bool.

(** X12: [pre_init] returns exactly when the four primitives it checks are
    registered and the allocation gives a block.  The context is then the
    default one, the stream is recorded, and the world is the allocator's,
    run after the panic handler was set and the logger initialised. *)
Theorem pre_init_returns_iff (panic : interflop_panic_t) (stream : File)
    (w w' : World) (r : pre_init_t) :
  pre_init panic stream w = Ok r w' <->
  interflop_denormalHandler <> None /\
  interflop_strcasecmp <> None /\
  interflop_strtol <> None /\
  exists malloc block,
    interflop_malloc = Some malloc /\
    malloc (world_before_alloc panic stream w) = (Some block, w') /\
    r = {| stderr_stream := stream;
           context := {| flushtozero := false |} |}.
Proof.
  unfold_pre_init.
  destruct interflop_denormalHandler as [handler | ];
    [ | split; [ discriminate | intros (H & _); now elim H ] ].
  destruct interflop_malloc as [malloc | ];
    [ | split; [ discriminate
               | intros (_ & _ & _ & m & b & H & _); discriminate H ] ].
  destruct interflop_strcasecmp as [strcasecmp | ];
    [ | split; [ discriminate | intros (_ & H & _); now elim H ] ].
  destruct interflop_strtol as [strtol | ];
    [ | split; [ discriminate | intros (_ & _ & H & _); now elim H ] ].
  simpl.
  destruct (malloc (logger_init panic stream backend_name
                      (interflop_set_handler "panic"%string panic w)))
    as [[block | ] w1] eqn:Hm.
  - split.
    + intros [= <- <-]. repeat split; try discriminate.
      exists malloc, block. repeat split. exact Hm.
    + intros (_ & _ & _ & m & b & [= <-] & Hm' & ->).
      rewrite Hm in Hm'. now injection Hm' as _ ->.
  - split; [ discriminate | ].
    intros (_ & _ & _ & m & b & [= <-] & Hm' & _).
    rewrite Hm in Hm'. discriminate Hm'.
Qed.

(** X13: when one of the four primitives is missing, [pre_init] ends in
    [interflop_panic] right after the panic handler was set: the logger is
    not initialised and nothing is allocated. *)
Theorem pre_init_missing_primitive (panic : interflop_panic_t)
    (stream : File) (w : World) :
  interflop_denormalHandler = None \/ interflop_malloc = None \/
  interflop_strcasecmp = None \/ interflop_strtol = None ->
  exists msg,
    pre_init panic stream w =
    Panic msg (interflop_set_handler "panic" panic w).
Proof.
  intros Hmissing. unfold_pre_init.
  destruct interflop_denormalHandler; [ | eexists; reflexivity ].
  destruct interflop_malloc; [ | eexists; reflexivity ].
  destruct interflop_strcasecmp; [ | eexists; reflexivity ].
  destruct interflop_strtol; [ | eexists; reflexivity ].
  exfalso. destruct Hmissing as [H | [H | [H | H]]]; discriminate H.
Qed.

(** X14: the result of the allocation is not checked.  With the four
    primitives registered and an allocator that returns Null, [pre_init]
    writes the default flag through the Null pointer. *)
Theorem pre_init_null_block (panic : interflop_panic_t) (stream : File)
    (w : World) handler malloc strcasecmp strtol :
  interflop_denormalHandler = Some handler ->
  interflop_malloc = Some malloc ->
  interflop_strcasecmp = Some strcasecmp ->
  interflop_strtol = Some strtol ->
  fst (malloc (world_before_alloc panic stream w)) = None ->
  pre_init panic stream w =
  Fault (snd (malloc (world_before_alloc panic stream w))).
Proof.
  intros Hh Hm Hs Ht Hnull. unfold_pre_init.
  rewrite Hh, Hm, Hs, Ht. simpl.
  unfold world_before_alloc in Hnull.
  destruct (malloc (logger_init panic stream backend_name
                      (interflop_set_handler "panic"%string panic w)))
    as [block w1].
  simpl in Hnull. now subst block.
Qed.

(** X15: what [init] logs.  With [getenv] and [strcasecmp] registered,
    [init] returns the table; the world is untouched when
    [VFC_BACKENDS_SILENT_LOAD] is set to a value that [strcasecmp] finds
    equal to [True], and otherwise has the two lines of the header, the
    second with the current value of the flag. *)
Theorem init_header (ctx : checkdenormal_context_t) (w : World)
    getenv strcasecmp :
  interflop_getenv = Some getenv ->
  interflop_strcasecmp = Some strcasecmp ->
  init IFCD_DOOP ctx w =
  Ok (interflop_backend_checkdenormal IFCD_DOOP)
    (match getenv "VFC_BACKENDS_SILENT_LOAD"%string w with
     | Some env =>
         if strcasecmp env "True"%string =? 0 then w
         else world_after_header ctx w
     | None => world_after_header ctx w
     end).
Proof.
  intros Hg Hs. unfold_init. rewrite Hg, Hs.
  destruct (getenv "VFC_BACKENDS_SILENT_LOAD"%string w) as [env | ];
    [ | reflexivity ].
  now destruct (strcasecmp env "True"%string =? 0).
Qed.

(** X16: [init] never ends in [interflop_panic].  It calls through a Null
    pointer when [getenv] is not registered, and when the variable is set
    while [strcasecmp] is not registered; with the variable unset it does
    not need [strcasecmp]. *)
Theorem init_faults (ctx : checkdenormal_context_t) (w : World) :
  (forall msg w', init IFCD_DOOP ctx w <> Panic msg w') /\
  (interflop_getenv = None -> init IFCD_DOOP ctx w = Fault w) /\
  (forall getenv,
      interflop_getenv = Some getenv ->
      interflop_strcasecmp = None ->
      init IFCD_DOOP ctx w =
      match getenv "VFC_BACKENDS_SILENT_LOAD"%string w with
      | Some _ => Fault w
      | None =>
          Ok (interflop_backend_checkdenormal IFCD_DOOP)
            (world_after_header ctx w)
      end).
Proof.
  split; [ | split ].
  - intros msg w'. unfold_init.
    destruct interflop_getenv as [getenv | ]; [ | discriminate ].
    destruct (getenv "VFC_BACKENDS_SILENT_LOAD"%string w) as [env | ];
      [ | discriminate ].
    destruct interflop_strcasecmp as [strcasecmp | ]; [ | discriminate ].
    destruct (strcasecmp env "True"%string =? 0); discriminate.
  - intros Hg. unfold_init. now rewrite Hg.
  - intros getenv Hg Hs. unfold_init. rewrite Hg, Hs.
    now destruct (getenv "VFC_BACKENDS_SILENT_LOAD"%string w).
Qed.

End Startup.

Lemma pre_init_returns_iff_registered :
  pre_init (host := Variants.host_with (Some {| flushtozero := true |}) None)
    tt tt []
  = Ok (@Build_pre_init_t
          (Variants.host_with (Some {| flushtozero := true |}) None)
          tt {| flushtozero := false |})
      ["logger_init interflop-checkdenormal"%string;
       "set_handler panic"%string].
Proof.
  apply (pre_init_returns_iff
           (host := Variants.host_with (Some {| flushtozero := true |}) None)).
  repeat split; try discriminate.
  eexists. eexists. repeat split.
Defined.

Lemma pre_init_missing_primitive_unregistered :
  exists msg,
    pre_init (host := Hosts.unregistered) tt tt []
    = Panic msg ["set_handler panic"%string].
Proof.
  apply (pre_init_missing_primitive (host := Hosts.unregistered) tt tt []).
  left. reflexivity.
Defined.

Lemma pre_init_null_block_host :
  pre_init (host := Variants.host_with None None) tt tt []
  = Fault ["logger_init interflop-checkdenormal"%string;
           "set_handler panic"%string].
Proof.
  exact (pre_init_null_block (host := Variants.host_with None None) tt tt []
           _ (fun w => (None, w)) _ _ eq_refl eq_refl eq_refl eq_refl
           eq_refl).
Defined.

Lemma init_header_silent :
  init (host := Variants.host_with None (Some "TRUE"%string)) true
    {| flushtozero := true |} []
  = Ok (interflop_backend_checkdenormal true) [].
Proof.
  exact (init_header (host := Variants.host_with None (Some "TRUE"%string))
           true {| flushtozero := true |} [] _ _ eq_refl eq_refl).
Defined.

Lemma init_faults_unregistered :
  init (host := Hosts.unregistered) false {| flushtozero := false |}
    ["w"%string]
  = Fault ["w"%string].
Proof.
  apply (proj1 (proj2 (init_faults (host := Hosts.unregistered) false
                         {| flushtozero := false |} ["w"%string]))).
  reflexivity.
Defined.

(** On a host that leaves the variable unset, or sets it to something else,
    the header is logged with the value of the flag. *)
Example init_header_logged :
  init (host := Variants.host_with None (Some "yes"%string)) true
    {| flushtozero := true |} []
  = Ok (interflop_backend_checkdenormal true)
      [("%s = %s" ++ nl ++ ",flush-to-zero,true")%string;
       ("load backend with:" ++ nl)%string].
Proof. reflexivity. Qed.

(** ** Sessions *)

Section Sessions.
Context {host : interflop_host}.
Variable IFCD_DOOP : bool.

Lemma step_flag (c : call) (ctx ctx1 : checkdenormal_context_t)
    (w w1 : World) :
  is_cli c = false ->
  step IFCD_DOOP c (ctx, w) = Ok tt (ctx1, w1) ->
  flushtozero ctx1 =
  match c with
  | Call_configure conf => conf_flushtozero conf
  | _ => flushtozero ctx
  end.
Proof.
  destruct c as [op T a b res | T a b c res | a res | | | conf | argv];
    simpl; try discriminate; intros _.
  - now intros [= <- _].
  - destruct T; now intros [= <- _].
  - now intros [= <- _].
  - unfold with_context.
    destruct (init IFCD_DOOP ctx w); try discriminate. now intros [= <- _].
  - now intros [= <- _].
  - now intros [= <- _].
Qed.

(** X17: in a run of entry points that returns and does not go through
    [cli], the flag ends at the value of the last [configure] of the run, or
    at its value before the run when there is none: the interceptors,
    [init] and [finalize] leave it alone, in whatever order they come. *)
Theorem run_flag_last_configure (cs : list call)
    (ctx ctx' : checkdenormal_context_t) (w w' : World) :
  forallb (fun c => negb (is_cli c)) cs = true ->
  run IFCD_DOOP cs (ctx, w) = Ok tt (ctx', w') ->
  flushtozero ctx' = last (configure_values cs) (flushtozero ctx).
Proof.
  revert ctx w. induction cs as [ | c cs IH]; intros ctx w Hcs Hrun.
  - simpl in Hrun. unfold ret in Hrun. now injection Hrun as <- _.
  - simpl in Hcs. apply andb_true_iff in Hcs. destruct Hcs as [Hc Hcs].
    apply negb_true_iff in Hc.
    simpl in Hrun. apply bind_Ok in Hrun.
    destruct Hrun as ([] & [ctx1 w1] & Hstep & Hrun).
    apply (step_flag c ctx ctx1 w w1 Hc) in Hstep.
    rewrite (IH ctx1 w1 Hcs Hrun), Hstep.
    change (configure_values (c :: cs))
      with ((match c with
             | Call_configure conf => [conf_flushtozero conf]
             | _ => []
             end ++ configure_values cs)%list).
    destruct c; cbn [app]; try reflexivity.
    now rewrite last_cons_default.
Qed.

End Sessions.

Lemma run_flag_last_configure_session :
  run (host := Hosts.registered) true
    [Call_configure {| conf_flushtozero := true |};
     Call_init;
     Call_arith Mul double d_1e_310 d_1e_310 S754_nan;
     Call_configure {| conf_flushtozero := false |};
     Call_cast d_half_flt_min S754_nan;
     Call_finalize]
    ({| flushtozero := true |}, [])
  = Ok tt ({| flushtozero := false |},
           ["denormal"%string;
            ("%s = %s" ++ nl ++ ",flush-to-zero,true")%string;
            ("load backend with:" ++ nl)%string]) /\
  false = last [true; false] true.
Proof.
  split; [ reflexivity | ].
  exact (run_flag_last_configure (host := Hosts.registered) true
           [Call_configure {| conf_flushtozero := true |};
            Call_init;
            Call_arith Mul double d_1e_310 d_1e_310 S754_nan;
            Call_configure {| conf_flushtozero := false |};
            Call_cast d_half_flt_min S754_nan;
            Call_finalize]
           {| flushtozero := true |} {| flushtozero := false |} [] _
           eq_refl eq_refl).
Defined.

(** ** From pre-initialisation to initialisation *)

Section StartupSequence.
Context {host : interflop_host}.
Variable IFCD_DOOP : bool.

(** What a returned [pre_init] tells about the host and the context. *)
Lemma pre_init_checked (panic : interflop_panic_t) (stream : File)
    (w w' : World) (r : pre_init_t) :
  pre_init panic stream w = Ok r w' ->
  context r = {| flushtozero := false |} /\
  exists strcasecmp, interflop_strcasecmp = Some strcasecmp.
Proof.
  unfold_pre_init.
  destruct interflop_denormalHandler; [ | discriminate ].
  destruct interflop_malloc as [malloc | ]; [ | discriminate ].
  destruct interflop_strcasecmp as [strcasecmp | ]; [ | discriminate ].
  destruct interflop_strtol; [ | discriminate ].
  simpl.
  destruct (malloc _) as [[block | ] w1]; [ | discriminate ].
  intros [= <- _]. split; [ reflexivity | now exists strcasecmp ].
Qed.

(** X18: once [pre_init] has returned, [init] on its context returns the
    table as soon as [getenv] is registered, since [pre_init] has checked
    [strcasecmp].  The header is silenced exactly when
    [VFC_BACKENDS_SILENT_LOAD] is set to a value [strcasecmp] finds equal to
    [True]; whenever it is not, with the variable unset or set to anything
    else, its second line reports the flag as false. *)
Theorem init_after_pre_init (panic : interflop_panic_t) (stream : File)
    (w w' : World) (r : pre_init_t) getenv :
  pre_init panic stream w = Ok r w' ->
  interflop_getenv = Some getenv ->
  exists strcasecmp,
    interflop_strcasecmp = Some strcasecmp /\
    let silenced :=
      match getenv "VFC_BACKENDS_SILENT_LOAD"%string w' with
      | Some env => strcasecmp env "True"%string =? 0
      | None => false
      end in
    init IFCD_DOOP (context r) w' =
    Ok (interflop_backend_checkdenormal IFCD_DOOP)
      (if silenced then w'
       else logger_info ("%s = %s" ++ nl)%string
              [key_ftz_str; "false"%string]
              (logger_info ("load backend with:" ++ nl)%string [] w')).
Proof.
  intros Hpre Hg.
  destruct (pre_init_checked panic stream w w' r Hpre)
    as (-> & strcasecmp & Hsc).
  exists strcasecmp. split; [ exact Hsc | ].
  unfold_init. rewrite Hg, Hsc.
  destruct (getenv "VFC_BACKENDS_SILENT_LOAD"%string w') as [env | ];
    [ | reflexivity ].
  now destruct (strcasecmp env "True"%string =? 0).
Qed.

End StartupSequence.

Lemma init_after_pre_init_registered :
  exists strcasecmp,
    interflop_strcasecmp
      (interflop_host :=
         Variants.host_with (Some {| flushtozero := true |})
           (Some "yes"%string))
    = Some strcasecmp /\
    init (host := Variants.host_with (Some {| flushtozero := true |})
                    (Some "yes"%string)) true {| flushtozero := false |}
      ["logger_init interflop-checkdenormal"%string;
       "set_handler panic"%string]
    = Ok (interflop_backend_checkdenormal true)
        [("%s = %s" ++ nl ++ ",flush-to-zero,false")%string;
         ("load backend with:" ++ nl)%string;
         "logger_init interflop-checkdenormal"%string;
         "set_handler panic"%string].
Proof.
  destruct (init_after_pre_init
              (host := Variants.host_with (Some {| flushtozero := true |})
                         (Some "yes"%string))
              true tt tt [] _ _ _ eq_refl eq_refl)
    as (strcasecmp & Hregistered & Hinit).
  exists strcasecmp. split; [ exact Hregistered | ].
  injection Hregistered as Hsame. subst strcasecmp. exact Hinit.
Defined.
